(** * compas_occ: the binding layer over the OCC kernel, embedded and verified

    The repository wraps a native CAD kernel.  Everything the kernel does is
    taken here as an interface ([Kernel]); everything the host geometry
    library does is taken as an interface too ([Scalar], [Host]); the
    wrappers of this repository whose code is elsewhere are the interface
    [Wrappers].  What is defined below is the code of

      - conversions/primitives.py        (Module-level functions)
      - brep/brep.py                     (class BRep)
      - geometry/surfaces/bspline.py     (class BSplineSurface)

    written as state-passing functions over the Python objects they touch.
    A kernel call is taken to return: a kernel that raises inside one of its
    own routines is outside this model. *)

From stdpp Require Import base list strings.
From Stdlib Require Import ZArith Lia.
From Stdlib Require QArith.

Local Open Scope string_scope.
Local Open Scope list_scope.

(** ** Python results: a value or a raised exception *)

Inductive exn : Type :=
| IndexError
| AttributeError
| TypeError
| Exception (msg : string).

Inductive result (A : Type) : Type :=
| Return (a : A)
| Raise (e : exn).

Arguments Return {A} a.
Arguments Raise {A} e.

Definition is_raise {A} (r : result A) : bool :=
  match r with Return _ => false | Raise _ => true end.

(** A computation over a mutable state [S]: the state after the call is
    kept also when the call raises, as Python keeps every assignment made
    before the [raise]. *)
Definition py (S A : Type) : Type := S -> result A * S.

Definition ret {S A} (a : A) : py S A := fun s => (Return a, s).
Definition raise {S A} (e : exn) : py S A := fun s => (Raise e, s).
Definition bind {S A B} (m : py S A) (k : A -> py S B) : py S B :=
  fun s => match m s with
           | (Return a, s') => k a s'
           | (Raise e, s') => (Raise e, s')
           end.
Definition get {S} : py S S := fun s => (Return s, s).
Definition put {S} (s : S) : py S unit := fun _ => (Return tt, s).

Notation "'let*' x ':=' m 'in' k" := (bind m (fun x => k))
  (at level 10, x pattern, m at level 100, k at level 200).
Notation "m ';;' k" := (bind m (fun _ => k))
  (at level 100, k at level 200, right associativity).

(** A method called on [None] raises AttributeError in Python; [None] handed
    to a kernel routine where it expects one of its objects is refused by
    the binding with TypeError. *)
Definition method_receiver {S A} (o : option A) : py S A :=
  match o with Some a => ret a | None => raise AttributeError end.

Definition kernel_argument {S A} (o : option A) : py S A :=
  match o with Some a => ret a | None => raise TypeError end.

(** ** The host geometry model (compas.geometry) *)

(** Python floats, with the two operations and the constants the sources use. *)
Class Scalar : Type := {
  float : Type;
  fadd : float -> float -> float;
  fmul : float -> float -> float;
  f0 : float;
  f1 : float;
  fneg_half : float;          (* the literal -0.5 *)
}.

Section Generic.
Context `{Scalar}.

Record Point : Type := mkPoint { px : float; py_ : float; pz : float }.
Record Vector : Type := mkVector { vx : float; vy : float; vz : float }.
Record Line : Type := mkLine { start : Point; end_ : Point }.
Record Plane : Type := mkPlane { plane_point : Point; normal : Vector }.
Record Circle : Type := mkCircle { circle_plane : Plane; circle_radius : float }.
Record Sphere : Type := mkSphere { sphere_point : Point; sphere_radius : float }.
Record Cylinder : Type := mkCylinder { cylinder_circle : Circle; cylinder_height : float }.
Record Cone : Type := mkCone { cone_circle : Circle; cone_height : float }.
Record Torus : Type :=
  mkTorus { torus_plane : Plane; radius_axis : float; radius_pipe : float }.

(** [Cylinder.plane] and [Cone.plane] are the planes of their circles. *)
Definition cylinder_plane (c : Cylinder) : Plane := circle_plane (cylinder_circle c).
Definition cone_plane (c : Cone) : Plane := circle_plane (cone_circle c).

(** [Vector.scaled(n)], [Vector.__mul__(n)] and [Vector.__add__]. *)
Definition scaled (v : Vector) (n : float) : Vector :=
  mkVector (fmul (vx v) n) (fmul (vy v) n) (fmul (vz v) n).
Definition vector_add (u v : Vector) : Vector :=
  mkVector (fadd (vx u) (vx v)) (fadd (vy u) (vy v)) (fadd (vz u) (vz v)).
End Generic.

(** What the sources use of the host library without this repository
    deciding it: frames, transformations, boxes and meshes. *)
Class Host `{Scalar} : Type := {
  Frame : Type;
  Frame_new : Point -> Vector -> Vector -> Frame;       (* Frame(point, xaxis, yaxis) *)
  Frame_point : Frame -> Point;
  Frame_xaxis : Frame -> Vector;
  Frame_yaxis : Frame -> Vector;
  Frame_zaxis : Frame -> Vector;
  Frame_from_plane : Plane -> Frame;
  Transformation : Type;
  Translation_from_vector : Vector -> Transformation;
  Frame_transformed : Frame -> Transformation -> Frame;
  Line_direction : Line -> Vector;                      (* Line.direction *)
  Box : Type;
  Box_frame : Box -> Frame;
  xsize : Box -> float;
  ysize : Box -> float;
  zsize : Box -> float;
  Mesh : Type;
  fkey : Type;
  Mesh_faces : Mesh -> list fkey;                       (* mesh.faces() *)
  Mesh_face_coordinates : Mesh -> fkey -> list Point;   (* mesh.face_coordinates(face) *)
}.

(** ** The kernel's plain geometry (OCC.Core.gp)

    A gp value is written as the constructor call that made it.  [gp_Pnt]
    and [gp_Vec] store their three coordinates; every other reading of a gp
    value is a kernel routine (see [Kernel]). *)

Section Native.
Context `{Scalar}.

Record gp_Pnt : Type := Gp_Pnt { Pnt_X : float; Pnt_Y : float; Pnt_Z : float }.
Record gp_Vec : Type := Gp_Vec { Vec_X : float; Vec_Y : float; Vec_Z : float }.
Inductive gp_Dir : Type := Gp_Dir (x y z : float).
Record gp_Ax1 : Type := Gp_Ax1 { Ax1_Location : gp_Pnt; Ax1_Direction : gp_Dir }.
Inductive gp_Lin : Type := Gp_Lin (p : gp_Pnt) (v : gp_Dir).
Inductive gp_Pln : Type := Gp_Pln (p : gp_Pnt) (v : gp_Dir).
Inductive gp_Ax2 : Type :=
| Gp_Ax2 (p : gp_Pnt) (v : gp_Dir)                    (* gp_Ax2(P, V) *)
| Gp_Ax2_N_Vx (p : gp_Pnt) (n : gp_Dir) (vx : gp_Dir). (* gp_Ax2(P, N, Vx) *)
Inductive gp_Ax3 : Type := Gp_Ax3 (p : gp_Pnt) (v : gp_Dir).
Inductive gp_Circ : Type := Gp_Circ (a2 : gp_Ax2) (radius : float).
Inductive gp_Sphere : Type := Gp_Sphere (a3 : gp_Ax3) (radius : float).
Inductive gp_Cylinder : Type := Gp_Cylinder (a3 : gp_Ax3) (radius : float).
Inductive gp_Cone : Type := Gp_Cone (a3 : gp_Ax3) (radius : float).
Inductive gp_Torus : Type := Gp_Torus (a3 : gp_Ax3) (major minor : float).
End Native.

(** The kernel's readings of directions and positions. *)
Class GpKernel `{Scalar} : Type := {
  Dir_X : gp_Dir -> float;
  Dir_Y : gp_Dir -> float;
  Dir_Z : gp_Dir -> float;
  Ax3_Location : gp_Ax3 -> gp_Pnt;
  Ax3_XDirection : gp_Ax3 -> gp_Dir;
  Ax3_YDirection : gp_Ax3 -> gp_Dir;
}.

(** ** conversions/primitives.py *)

Module Primitives.
Section Primitives.
Context `{Host} `{!GpKernel}.

Definition compas_point_to_occ_point (self : Point) : gp_Pnt :=
  Gp_Pnt (px self) (py_ self) (pz self).

Definition compas_point_from_occ_point (point : gp_Pnt) : Point :=
  mkPoint (Pnt_X point) (Pnt_Y point) (Pnt_Z point).

Definition compas_vector_to_occ_vector (self : Vector) : gp_Vec :=
  Gp_Vec (vx self) (vy self) (vz self).

Definition compas_vector_from_occ_vector (vector : gp_Vec) : Vector :=
  mkVector (Vec_X vector) (Vec_Y vector) (Vec_Z vector).

Definition compas_vector_to_occ_direction (self : Vector) : gp_Dir :=
  Gp_Dir (vx self) (vy self) (vz self).

Definition compas_vector_from_occ_direction (vector : gp_Dir) : Vector :=
  mkVector (Dir_X vector) (Dir_Y vector) (Dir_Z vector).

Definition compas_axis_to_occ_axis (axis : Point * Vector) : gp_Ax1 :=
  Gp_Ax1 (compas_point_to_occ_point (fst axis))
         (compas_vector_to_occ_direction (snd axis)).

(** The body calls [compas_point_from_occ_point(axis.Location())] with one
    argument where the function takes [cls] and [point]: Python raises
    TypeError at that call, before anything is built. *)
Definition compas_axis_from_occ_axis (axis : gp_Ax1) : result (Point * Vector) :=
  Raise TypeError.

Definition compas_line_to_occ_line (self : Line) : gp_Lin :=
  Gp_Lin (compas_point_to_occ_point (start self))
         (compas_vector_to_occ_direction (Line_direction self)).

Definition compas_plane_to_occ_plane (plane : Plane) : gp_Pln :=
  Gp_Pln (compas_point_to_occ_point (plane_point plane))
         (compas_vector_to_occ_direction (normal plane)).

Definition compas_plane_to_occ_ax2 (plane : Plane) : gp_Ax2 :=
  Gp_Ax2 (compas_point_to_occ_point (plane_point plane))
         (compas_vector_to_occ_direction (normal plane)).

Definition compas_plane_to_occ_ax3 (plane : Plane) : gp_Ax3 :=
  Gp_Ax3 (compas_point_to_occ_point (plane_point plane))
         (compas_vector_to_occ_direction (normal plane)).

Definition compas_frame_from_occ_position (position : gp_Ax3) : Frame :=
  Frame_new (compas_point_from_occ_point (Ax3_Location position))
            (compas_vector_from_occ_direction (Ax3_XDirection position))
            (compas_vector_from_occ_direction (Ax3_YDirection position)).

Definition compas_circle_to_occ_circle (circle : Circle) : gp_Circ :=
  Gp_Circ (compas_plane_to_occ_ax2 (circle_plane circle)) (circle_radius circle).

Definition compas_sphere_to_occ_sphere (sphere : Sphere) : gp_Sphere :=
  let plane := mkPlane (sphere_point sphere) (mkVector f0 f0 f1) in
  Gp_Sphere (compas_plane_to_occ_ax3 plane) (sphere_radius sphere).

Definition compas_cylinder_to_occ_cylinder (cylinder : Cylinder) : gp_Cylinder :=
  Gp_Cylinder (compas_plane_to_occ_ax3 (cylinder_plane cylinder))
              (circle_radius (cylinder_circle cylinder)).

Definition compas_cone_to_occ_cone (cone : Cone) : gp_Cone :=
  Gp_Cone (compas_plane_to_occ_ax3 (cone_plane cone))
          (circle_radius (cone_circle cone)).

Definition compas_torus_to_occ_torus (torus : Torus) : gp_Torus :=
  Gp_Torus (compas_plane_to_occ_ax3 (torus_plane torus))
           (radius_axis torus) (radius_pipe torus).

End Primitives.

(** *** The module as a table of its functions *)

(** The nine generic primitive types, and the two further generic shapes
    the module converts (an axis as a point-vector pair, a frame). *)
Inductive primitive : Type :=
| point | vector | line | plane | circle | sphere | cylinder | cone | torus.

Inductive generic : Type :=
| Prim (p : primitive)
| axis
| frame.

Inductive native : Type :=
| Pnt | Vec | Dir | Ax1 | Lin | Pln | Ax2 | Ax3 | Circ | Sph | Cyl | Con | Tor.

Definition generic_type `{Host} (g : generic) : Type :=
  match g with
  | Prim point => Point
  | Prim vector => Vector
  | Prim line => Line
  | Prim plane => Plane
  | Prim circle => Circle
  | Prim sphere => Sphere
  | Prim cylinder => Cylinder
  | Prim cone => Cone
  | Prim torus => Torus
  | axis => (Point * Vector)%type
  | frame => Frame
  end.

Definition native_type `{Scalar} (n : native) : Type :=
  match n with
  | Pnt => gp_Pnt | Vec => gp_Vec | Dir => gp_Dir | Ax1 => gp_Ax1
  | Lin => gp_Lin | Pln => gp_Pln | Ax2 => gp_Ax2 | Ax3 => gp_Ax3
  | Circ => gp_Circ | Sph => gp_Sphere | Cyl => gp_Cylinder
  | Con => gp_Cone | Tor => gp_Torus
  end.

(** One function of the module: its name, its direction, the generic and
    the native type it relates, and the function itself, over any host and
    kernel. *)
Inductive conversion : Type :=
| to_occ (name : string) (g : generic) (n : native)
         (f : forall (S : Scalar) (Ho : Host) (G : GpKernel),
             generic_type g -> native_type n)
| from_occ (name : string) (n : native) (g : generic)
           (f : forall (S : Scalar) (Ho : Host) (G : GpKernel),
               native_type n -> result (generic_type g)).

Definition total {A B} (f : A -> B) : A -> result B := fun a => Return (f a).

Definition functions : list conversion :=
  [ to_occ "compas_point_to_occ_point" (Prim point) Pnt
           (fun _ _ _ => compas_point_to_occ_point);
    from_occ "compas_point_from_occ_point" Pnt (Prim point)
             (fun _ _ _ => total compas_point_from_occ_point);
    to_occ "compas_vector_to_occ_vector" (Prim vector) Vec
           (fun _ _ _ => compas_vector_to_occ_vector);
    from_occ "compas_vector_from_occ_vector" Vec (Prim vector)
             (fun _ _ _ => total compas_vector_from_occ_vector);
    to_occ "compas_vector_to_occ_direction" (Prim vector) Dir
           (fun _ _ _ => compas_vector_to_occ_direction);
    from_occ "compas_vector_from_occ_direction" Dir (Prim vector)
             (fun _ _ _ => total compas_vector_from_occ_direction);
    to_occ "compas_axis_to_occ_axis" axis Ax1
           (fun _ _ _ => compas_axis_to_occ_axis);
    from_occ "compas_axis_from_occ_axis" Ax1 axis
             (fun _ _ _ => compas_axis_from_occ_axis);
    to_occ "compas_line_to_occ_line" (Prim line) Lin
           (fun _ _ _ => compas_line_to_occ_line);
    to_occ "compas_plane_to_occ_plane" (Prim plane) Pln
           (fun _ _ _ => compas_plane_to_occ_plane);
    to_occ "compas_plane_to_occ_ax2" (Prim plane) Ax2
           (fun _ _ _ => compas_plane_to_occ_ax2);
    to_occ "compas_plane_to_occ_ax3" (Prim plane) Ax3
           (fun _ _ _ => compas_plane_to_occ_ax3);
    from_occ "compas_frame_from_occ_position" Ax3 frame
             (fun _ _ _ => total compas_frame_from_occ_position);
    to_occ "compas_circle_to_occ_circle" (Prim circle) Circ
           (fun _ _ _ => compas_circle_to_occ_circle);
    to_occ "compas_sphere_to_occ_sphere" (Prim sphere) Sph
           (fun _ _ _ => compas_sphere_to_occ_sphere);
    to_occ "compas_cylinder_to_occ_cylinder" (Prim cylinder) Cyl
           (fun _ _ _ => compas_cylinder_to_occ_cylinder);
    to_occ "compas_cone_to_occ_cone" (Prim cone) Con
           (fun _ _ _ => compas_cone_to_occ_cone);
    to_occ "compas_torus_to_occ_torus" (Prim torus) Tor
           (fun _ _ _ => compas_torus_to_occ_torus) ].

Definition primitive_eqb (p q : primitive) : bool :=
  match p, q with
  | point, point | vector, vector | line, line | plane, plane
  | circle, circle | sphere, sphere | cylinder, cylinder
  | cone, cone | torus, torus => true
  | _, _ => false
  end.

Definition converts_to_occ (p : primitive) (c : conversion) : bool :=
  match c with
  | to_occ _ (Prim q) _ _ => primitive_eqb p q
  | _ => false
  end.

Definition converts_from_occ (p : primitive) (c : conversion) : bool :=
  match c with
  | from_occ _ _ (Prim q) _ => primitive_eqb p q
  | _ => false
  end.

(** The module has a function from the generic type [p] to a native one. *)
Definition provides_to_occ (p : primitive) : bool :=
  existsb (converts_to_occ p) functions.

(** The module has a function from a native type back to [p]. *)
Definition provides_from_occ (p : primitive) : bool :=
  existsb (converts_from_occ p) functions.

Definition bidirectional (p : primitive) : bool :=
  provides_to_occ p && provides_from_occ p.
End Primitives.

(** ** The kernel's shapes, algorithms and surfaces (OCC.Core) *)

Inductive TopAbs_ShapeEnum : Type :=
| TopAbs_COMPOUND | TopAbs_COMPSOLID | TopAbs_SOLID | TopAbs_SHELL
| TopAbs_FACE | TopAbs_WIRE | TopAbs_EDGE | TopAbs_VERTEX | TopAbs_SHAPE.

Definition ShapeEnum_eqb (a b : TopAbs_ShapeEnum) : bool :=
  match a, b with
  | TopAbs_COMPOUND, TopAbs_COMPOUND | TopAbs_COMPSOLID, TopAbs_COMPSOLID
  | TopAbs_SOLID, TopAbs_SOLID | TopAbs_SHELL, TopAbs_SHELL
  | TopAbs_FACE, TopAbs_FACE | TopAbs_WIRE, TopAbs_WIRE
  | TopAbs_EDGE, TopAbs_EDGE | TopAbs_VERTEX, TopAbs_VERTEX
  | TopAbs_SHAPE, TopAbs_SHAPE => true
  | _, _ => false
  end.

(** A boolean operator object after its construction: what [IsDone()] and
    [Shape()] answer. *)
Record BooleanOperation (shape : Type) : Type :=
  mkBooleanOperation { IsDone : bool; Shape : shape }.
Arguments mkBooleanOperation {shape} _ _.
Arguments IsDone {shape} _.
Arguments Shape {shape} _.

(** A [BRepBuilderAPI_Sewing] object: what was loaded, and whether
    [Perform()] ran. *)
Record Sewing (shape : Type) : Type :=
  mkSewing { sewing_loaded : option shape; sewing_performed : bool }.
Arguments mkSewing {shape} _ _.
Arguments sewing_loaded {shape} _.
Arguments sewing_performed {shape} _.

(** A [ShapeFix_Shell] object: the shape it was built on, and whether
    [Perform()] ran. *)
Record ShapeFix (shape : Type) : Type :=
  mkShapeFix { fix_shape : shape; fix_performed : bool }.
Arguments mkShapeFix {shape} _ _.
Arguments fix_shape {shape} _.
Arguments fix_performed {shape} _.

Definition BRepBuilderAPI_Sewing {shape} : Sewing shape := mkSewing None false.
Definition Load {shape} (sewer : Sewing shape) (s : shape) : Sewing shape :=
  mkSewing (Some s) (sewing_performed sewer).
Definition Perform {shape} (sewer : Sewing shape) : Sewing shape :=
  mkSewing (sewing_loaded sewer) true.

Definition ShapeFix_Shell {shape} (s : shape) : ShapeFix shape := mkShapeFix s false.
Definition ShapeFix_Perform {shape} (fixer : ShapeFix shape) : ShapeFix shape :=
  mkShapeFix (fix_shape fixer) true.

Class Kernel `{Scalar} : Type := {
  TopoDS_Shape : Type;
  ShapeType : TopoDS_Shape -> TopAbs_ShapeEnum;
(* TopExp_Explorer(shape, kind): the sub-shapes the explorer will yield,
     first to last *)
TopExp_Explorer : TopoDS_Shape -> TopAbs_ShapeEnum -> list TopoDS_Shape;
TopoDS_Shell : TopoDS_Shape;                              (* TopoDS_Shell() *)
MakeShell : TopoDS_Shape -> TopoDS_Shape;                 (* builder.MakeShell(shell) *)
Add : TopoDS_Shape -> TopoDS_Shape -> TopoDS_Shape;       (* builder.Add(shell, face) *)
BRepPrimAPI_MakeBox : gp_Ax2 -> float -> float -> float -> TopoDS_Shape;
BRepPrimAPI_MakeSphere : gp_Pnt -> float -> TopoDS_Shape;
BRepPrimAPI_MakeCylinder : gp_Ax2 -> float -> float -> TopoDS_Shape;
BRepAlgoAPI_Cut : TopoDS_Shape -> TopoDS_Shape -> BooleanOperation TopoDS_Shape;
BRepAlgoAPI_Common : TopoDS_Shape -> TopoDS_Shape -> BooleanOperation TopoDS_Shape;
BRepAlgoAPI_Fuse : TopoDS_Shape -> TopoDS_Shape -> BooleanOperation TopoDS_Shape;
SewedShape : Sewing TopoDS_Shape -> TopoDS_Shape;         (* sewer.SewedShape() *)
Shell : ShapeFix TopoDS_Shape -> TopoDS_Shape;            (* fixer.Shell() *)
(* B-spline surfaces *)
Geom_BSplineSurface : Type;
TColgp_Array2OfPnt : Type;
TColStd_Array1OfReal : Type;
TColStd_Array1OfInteger : Type;
Poles : Geom_BSplineSurface -> TColgp_Array2OfPnt;
UKnots : Geom_BSplineSurface -> TColStd_Array1OfReal;
VKnots : Geom_BSplineSurface -> TColStd_Array1OfReal;
UMultiplicities : Geom_BSplineSurface -> TColStd_Array1OfInteger;
VMultiplicities : Geom_BSplineSurface -> TColStd_Array1OfInteger;
UDegree : Geom_BSplineSurface -> Z;
VDegree : Geom_BSplineSurface -> Z;
Bounds : Geom_BSplineSurface -> float * float * float * float;
IsUPeriodic : Geom_BSplineSurface -> bool;
IsVPeriodic : Geom_BSplineSurface -> bool;
Value : Geom_BSplineSurface -> float -> float -> gp_Pnt;
(* D1(u, v, P, D1U, D1V): what the call leaves in its three out-arguments *)
D1 : Geom_BSplineSurface -> float -> float -> gp_Pnt * gp_Vec * gp_Vec;
Geom_Line : Type;
Geom_Line_new : gp_Lin -> Geom_Line;
GeomAPI_IntCS : Type;
GeomAPI_IntCS_new : Geom_Line -> Geom_BSplineSurface -> GeomAPI_IntCS;
NbPoints : GeomAPI_IntCS -> Z;
IntCS_Point : GeomAPI_IntCS -> Z -> gp_Pnt;
}.

(** ** The wrappers of this repository defined outside the three files *)

Section WrapperValues.
Context `{Kernel}.

(** [BRepVertex(vertex)], [BRepEdge(edge)], [BRepLoop(wire)] and
    [BRepFace(face)]: a wrapper around the sub-shape it was built on. *)
Record BRepVertex : Type := mkBRepVertex { occ_vertex : TopoDS_Shape }.
Record BRepEdge : Type := mkBRepEdge { occ_edge : TopoDS_Shape }.
Record BRepLoop : Type := mkBRepLoop { occ_wire : TopoDS_Shape }.
Record BRepFace : Type := mkBRepFace { occ_face : TopoDS_Shape }.
End WrapperValues.

Class Wrappers `{Kernel} : Type := {
  (* compas_occ.conversions *)
  triangle_to_face : list Point -> TopoDS_Shape;
  quad_to_face : list Point -> TopoDS_Shape;
  ngon_to_face : list Point -> TopoDS_Shape;
  points2_from_array2 : TColgp_Array2OfPnt -> list (list Point);
  (* compas_occ.brep *)
  BRepFace_is_valid : BRepFace -> bool;                 (* face.is_valid() *)
  BRepFace_fix : BRepFace -> BRepFace;                  (* the face after face.fix() *)
  BRepFace_loops : BRepFace -> list BRepLoop;           (* face.loops *)
  BRepLoop_edges : BRepLoop -> list BRepEdge;           (* loop.edges *)
  (* the data dictionaries of curves and surfaces *)
  geometry_data : Type;
  BRepEdge_nurbscurve_data : BRepEdge -> geometry_data;     (* edge.nurbscurve.data *)
  BRepFace_nurbssurface_data : BRepFace -> geometry_data;   (* face.nurbssurface.data *)
}.

(** ** The generic data dictionary *)

#[local] Set Warnings "-register-all".

Inductive value (leaf : Type) : Type :=
| VLeaf (d : leaf)                              (* a curve's or a surface's data *)
| VList (items : list (value leaf))
| VDict (items : list (string * value leaf)).   (* keys in insertion order *)
Arguments VLeaf {leaf} d.
Arguments VList {leaf} items.
Arguments VDict {leaf} items.

(** ** brep/brep.py: class BRep *)

Module Brep.
Section Brep.
Context `{Host} `{!GpKernel} `{!Kernel} `{!Wrappers}.

(** A BRep object: its one attribute, [None] after [__init__]. *)
Record BRep : Type := mkBRep { _occ_shape : option TopoDS_Shape }.

Definition __init__ : BRep := mkBRep None.

(** *** Properties *)

Definition occ_shape : py BRep (option TopoDS_Shape) :=
  fun self => (Return (_occ_shape self), self).

Definition set_occ_shape (shape : option TopoDS_Shape) : py BRep unit :=
  fun self => (Return tt, mkBRep shape).

Definition type : py BRep TopAbs_ShapeEnum :=
  let* shape := occ_shape in
  let* shape := method_receiver shape in
  ret (ShapeType shape).

(** The loop shared by the four traversals:
    [while explorer.More(): x = explorer.Current(); acc.append(W(x)); explorer.Next()].
    The explorer is the list of what it has still to yield: [More()] is
    false on the empty list, [Current()] is the head, [Next()] drops it. *)
Fixpoint explore {W} (wrap : TopoDS_Shape -> W)
         (explorer : list TopoDS_Shape) (acc : list W) : list W :=
  match explorer with
  | [] => acc
  | current :: next => explore wrap next (acc ++ [wrap current])
  end.

Definition traverse {W} (wrap : TopoDS_Shape -> W) (kind : TopAbs_ShapeEnum)
  : py BRep (list W) :=
  let* shape := occ_shape in
  let* shape := kernel_argument shape in
  ret (explore wrap (TopExp_Explorer shape kind) []).

Definition vertices : py BRep (list BRepVertex) := traverse mkBRepVertex TopAbs_VERTEX.
Definition edges : py BRep (list BRepEdge) := traverse mkBRepEdge TopAbs_EDGE.
Definition loops : py BRep (list BRepLoop) := traverse mkBRepLoop TopAbs_WIRE.
Definition faces : py BRep (list BRepFace) := traverse mkBRepFace TopAbs_FACE.

(** *** Data *)

Abbreviation dict := (value geometry_data).

(** [for edge in face.loops[0].edges: boundary.append(edge.nurbscurve.data)] *)
Definition boundary_of (loop : BRepLoop) : list dict :=
  fold_left (fun boundary edge => boundary ++ [VLeaf (BRepEdge_nurbscurve_data edge)])
            (BRepLoop_edges loop) [].

(** [for loop in face.loops[1:]: pass] *)
Definition holes_of (inner : list BRepLoop) : list dict :=
  fold_left (fun holes _ => holes) inner [].

(** The body of the loop over the faces: the dictionary of one face.
    [face.loops[0]] raises IndexError on a face without loops. *)
Definition face_data (face : BRepFace) : result dict :=
  match BRepFace_loops face with
  | [] => Raise IndexError
  | first :: _ =>
      let boundary := boundary_of first in
      let holes := holes_of (tail (BRepFace_loops face)) in
      let surfacedata := BRepFace_nurbssurface_data face in
      Return (VDict [("boundary", VList boundary);
                     ("surface", VLeaf surfacedata);
                     ("holes", VList holes)])
  end.

Fixpoint data_loop (todo : list BRepFace) (faces : list dict) : result (list dict) :=
  match todo with
  | [] => Return faces
  | face :: rest =>
      match face_data face with
      | Return d => data_loop rest (faces ++ [d])
      | Raise e => Raise e
      end
  end.

(** The [data] getter. *)
Definition data : py BRep dict :=
  let* fs := faces in
  match data_loop fs [] with
  | Return faces => ret (VDict [("faces", VList faces)])
  | Raise e => raise e
  end.

(** *** Methods *)

Definition sew : py BRep unit :=
  let* fs := faces in
  if (1 <? length fs)%nat then
    let sewer : Sewing TopoDS_Shape := BRepBuilderAPI_Sewing in
    let* shape := occ_shape in
    let* shape := kernel_argument shape in
    let sewer := Load sewer shape in
    let sewer := Perform sewer in
    set_occ_shape (Some (SewedShape sewer))
  else ret tt.

Definition fix_ : py BRep unit :=
  let* t := type in
  if ShapeEnum_eqb t TopAbs_SHELL then
    let* shape := occ_shape in
    let* shape := kernel_argument shape in
    let fixer := ShapeFix_Shell shape in
    let fixer := ShapeFix_Perform fixer in
    set_occ_shape (Some (Shell fixer))
  else ret tt.

(** *** Objects and references

    A BRep has an identity: the class methods create objects, and two
    references may name the same one.  The heap is the list of the BRep
    objects created so far; a reference is an index into it. *)

Definition ref : Type := nat.
Definition heap : Type := list BRep.

(** [cls()]: a new object, initialised by [__init__]. *)
Definition cls : py heap ref :=
  fun h => (Return (length h), h ++ [__init__]).

(** A method of the object behind a reference.  Python has no reference
    to a missing object, so the last case is never met from a reference
    that [cls] returned. *)
Definition call {A} (r : ref) (m : py BRep A) : py heap A :=
  fun h => match h !! r with
           | Some self => let (a, self') := m self in (a, <[r := self']> h)
           | None => (Raise (Exception "no such object"), h)
           end.

(** *** Constructors *)

Definition add_polygon (shell : TopoDS_Shape) (points : list Point) : TopoDS_Shape :=
  if (length points =? 3)%nat then Add shell (triangle_to_face points)
  else if (length points =? 4)%nat then Add shell (quad_to_face points)
  else Add shell (ngon_to_face points).

Definition from_polygons (polygons : list (list Point)) : py heap ref :=
  let shell := MakeShell TopoDS_Shell in
  let shell := fold_left add_polygon polygons shell in
  let* brep := cls in
  call brep (set_occ_shape (Some shell)) ;;
  call brep sew ;;
  call brep fix_ ;;
  ret brep.

Definition gp_Pnt_of (p : Point) : gp_Pnt := Gp_Pnt (px p) (py_ p) (pz p).   (* gp_Pnt( *p ) *)
Definition gp_Dir_of (v : Vector) : gp_Dir := Gp_Dir (vx v) (vy v) (vz v).   (* gp_Dir( *v ) *)

Definition from_box (box : Box) : py heap ref :=
  let xaxis := scaled (Frame_xaxis (Box_frame box)) (fmul fneg_half (xsize box)) in
  let yaxis := scaled (Frame_yaxis (Box_frame box)) (fmul fneg_half (ysize box)) in
  let zaxis := scaled (Frame_zaxis (Box_frame box)) (fmul fneg_half (zsize box)) in
  let frame :=
    Frame_transformed (Box_frame box)
      (Translation_from_vector (vector_add (vector_add xaxis yaxis) zaxis)) in
  let ax2 := Gp_Ax2_N_Vx (gp_Pnt_of (Frame_point frame))
                         (gp_Dir_of (Frame_zaxis frame))
                         (gp_Dir_of (Frame_xaxis frame)) in
  let* brep := cls in
  call brep (set_occ_shape
               (Some (BRepPrimAPI_MakeBox ax2 (xsize box) (ysize box) (zsize box)))) ;;
  ret brep.

Definition from_sphere (sphere : Sphere) : py heap ref :=
  let* brep := cls in
  call brep (set_occ_shape
               (Some (BRepPrimAPI_MakeSphere (gp_Pnt_of (sphere_point sphere))
                                             (sphere_radius sphere)))) ;;
  ret brep.

(** [frame.transform(T)] changes the local frame in place; the frame
    afterwards is the transformed one. *)
Definition from_cylinder (cylinder : Cylinder) : py heap ref :=
  let plane := circle_plane (cylinder_circle cylinder) in
  let height := cylinder_height cylinder in
  let radius := circle_radius (cylinder_circle cylinder) in
  let frame := Frame_from_plane plane in
  let frame :=
    Frame_transformed frame
      (Translation_from_vector (scaled (Frame_zaxis frame) (fmul fneg_half height))) in
  let ax2 := Gp_Ax2_N_Vx (gp_Pnt_of (Frame_point frame))
                         (gp_Dir_of (Frame_zaxis frame))
                         (gp_Dir_of (Frame_xaxis frame)) in
  let* brep := cls in
  call brep (set_occ_shape (Some (BRepPrimAPI_MakeCylinder ax2 radius height))) ;;
  ret brep.

Definition from_mesh (mesh : Mesh) : py heap ref :=
  let shell := MakeShell TopoDS_Shell in
  let shell :=
    fold_left (fun shell face => add_polygon shell (Mesh_face_coordinates mesh face))
              (Mesh_faces mesh) shell in
  let* brep := cls in
  call brep (set_occ_shape (Some shell)) ;;
  call brep sew ;;
  call brep fix_ ;;
  ret brep.

(** [if not face.is_valid(): face.fix()] and then [builder.Add(shell, face.occ_face)]. *)
Definition add_face (shell : TopoDS_Shape) (face : BRepFace) : TopoDS_Shape :=
  let face := if negb (BRepFace_is_valid face) then BRepFace_fix face else face in
  Add shell (occ_face face).

Definition from_faces (faces : list BRepFace) : py heap ref :=
  let shell := MakeShell TopoDS_Shell in
  let shell := fold_left add_face faces shell in
  let* brep := cls in
  call brep (set_occ_shape (Some shell)) ;;
  call brep sew ;;
  call brep fix_ ;;
  ret brep.

(** *** Boolean constructors

    The three constructors are one body with a different kernel operator
    and message: [op = Operator(A.occ_shape, B.occ_shape)], the guard on
    [op.IsDone()], then [cls()] and the assignment of [op.Shape()]. *)

Definition boolean (operator : TopoDS_Shape -> TopoDS_Shape -> BooleanOperation TopoDS_Shape)
           (message : string) (A B : ref) : py heap ref :=
  let* a := call A occ_shape in
  let* a := kernel_argument a in
  let* b := call B occ_shape in
  let* b := kernel_argument b in
  let op := operator a b in
  if negb (IsDone op) then raise (Exception message)
  else
    let* brep := cls in
    call brep (set_occ_shape (Some (Shape op))) ;;
    ret brep.

Definition from_boolean_difference : ref -> ref -> py heap ref :=
  boolean BRepAlgoAPI_Cut "Boolean difference operation could not be completed.".

Definition from_boolean_intersection : ref -> ref -> py heap ref :=
  boolean BRepAlgoAPI_Common "Boolean intersection operation could not be completed.".

Definition from_boolean_union : ref -> ref -> py heap ref :=
  boolean BRepAlgoAPI_Fuse "Boolean union operation could not be completed.".

Definition __add__ (self other : ref) : py heap ref := from_boolean_union self other.
Definition __sub__ (self other : ref) : py heap ref := from_boolean_difference self other.
Definition __and__ (self other : ref) : py heap ref := from_boolean_intersection self other.
End Brep.
End Brep.

(** ** geometry/surfaces/bspline.py: class BSplineSurface *)

Module Bspline.
Section Bspline.
Context `{Host} `{!GpKernel} `{!Kernel} `{!Wrappers}.

(** A surface wrapper: its one attribute, [None] after [__init__]. *)
Record BSplineSurface : Type :=
  mkBSplineSurface { occ_surface : option Geom_BSplineSurface }.

(** [self.occ_surface.Query()] *)
Definition query {A} (Query : Geom_BSplineSurface -> A) : py BSplineSurface A :=
  let* surface := (fun self => (Return (occ_surface self), self)) in
  let* surface := method_receiver surface in
  ret (Query surface).

(** *** OCC *)

Definition occ_poles : py BSplineSurface TColgp_Array2OfPnt := query Poles.
Definition occ_u_knots : py BSplineSurface TColStd_Array1OfReal := query UKnots.
Definition occ_v_knots : py BSplineSurface TColStd_Array1OfReal := query VKnots.
Definition occ_u_mults : py BSplineSurface TColStd_Array1OfInteger := query UMultiplicities.
Definition occ_v_mults : py BSplineSurface TColStd_Array1OfInteger := query VMultiplicities.

(** *** Properties *)

Definition poles : py BSplineSurface (list (list Point)) :=
  let* array := occ_poles in
  ret (points2_from_array2 array).

Definition u_knots : py BSplineSurface TColStd_Array1OfReal := occ_u_knots.
Definition v_knots : py BSplineSurface TColStd_Array1OfReal := occ_v_knots.
Definition u_mults : py BSplineSurface TColStd_Array1OfInteger := occ_u_mults.
Definition v_mults : py BSplineSurface TColStd_Array1OfInteger := occ_v_mults.
Definition u_degree : py BSplineSurface Z := query UDegree.
Definition v_degree : py BSplineSurface Z := query VDegree.

Definition u_domain : py BSplineSurface (float * float) :=
  let* (umin, umax, _, _) := query Bounds in
  ret (umin, umax).

Definition v_domain : py BSplineSurface (float * float) :=
  let* (_, _, vmin, vmax) := query Bounds in
  ret (vmin, vmax).

Definition is_u_periodic : py BSplineSurface bool := query IsUPeriodic.
Definition is_v_periodic : py BSplineSurface bool := query IsVPeriodic.

(** *** Methods *)

(** [Point.from_occ], [Vector.from_occ] and [Line.to_occ] are the
    functions of primitives.py attached to the host classes at import. *)
Definition Point_from_occ := Primitives.compas_point_from_occ_point.
Definition Vector_from_occ := Primitives.compas_vector_from_occ_vector.
Definition Line_to_occ := Primitives.compas_line_to_occ_line.

(** [range(n)] *)
Definition range (n : Z) : list Z := map Z.of_nat (seq 0 (Z.to_nat n)).

Definition intersections (line : Line) : py BSplineSurface (list Point) :=
  let* surface := (fun self => (Return (occ_surface self), self)) in
  let* surface := kernel_argument surface in
  let intersection := GeomAPI_IntCS_new (Geom_Line_new (Line_to_occ line)) surface in
  let points :=
    fold_left (fun points index =>
                 let pnt := IntCS_Point intersection (index + 1)%Z in
                 let point := Point_from_occ pnt in
                 points ++ [point])
              (range (NbPoints intersection)) [] in
  ret points.

Definition point_at (u v : float) : py BSplineSurface Point :=
  let* point := query (fun surface => Value surface u v) in
  ret (Point_from_occ point).

Definition frame_at (u v : float) : py BSplineSurface Frame :=
  let* (point, uvec, vvec) := query (fun surface => D1 surface u v) in
  ret (Frame_new (Point_from_occ point) (Vector_from_occ uvec) (Vector_from_occ vvec)).
End Bspline.
End Bspline.


(** ** Python data: what a data dictionary is made of

    A data dictionary is JSON-like: numbers, booleans and [None] (the
    atoms), strings, lists, and dictionaries with string keys, each key
    once, in insertion order. *)

Class Atoms : Type := { atom : Type }.

#[local] Set Warnings "-register-all".

Inductive object `{Atoms} : Type :=
| OAtom (a : atom)
| OStr (s : string)
| OList (items : list object)
| ODict (items : list (string * object)).

(** [KeyError], a subclass of [Exception], is written as the [Exception]
    that carries its name and the missing key; [NotImplementedError]
    likewise. *)
Definition KeyError (key : string) : exn := Exception ("KeyError: " ++ key)%string.
Definition NotImplementedError : exn := Exception "NotImplementedError".

Definition rbind {A B} (r : result A) (k : A -> result B) : result B :=
  match r with Return a => k a | Raise e => Raise e end.

Notation "'let?' x ':=' r 'in' k" := (rbind r (fun x => k))
  (at level 10, x pattern, r at level 100, k at level 200).

(** A result of plain Python code, inside a method. *)
Definition lift {S A} (r : result A) : py S A :=
  match r with Return a => ret a | Raise e => raise e end.

Section Objects.
Context `{Atoms}.

Fixpoint lookup_key (key : string) (items : list (string * object)) : option object :=
  match items with
  | [] => None
  | (k, v) :: rest => if String.eqb k key then Some v else lookup_key key rest
  end.

(** [o[key]] for a string [key]: a dictionary answers or raises KeyError;
    a list, a string, a number, a boolean and [None] raise TypeError. *)
Definition getitem (o : object) (key : string) : result object :=
  match o with
  | ODict items =>
      match lookup_key key items with
      | Some v => Return v
      | None => Raise (KeyError key)
      end
  | _ => Raise TypeError
  end.

(** What [for x in o] goes through: the items of a list, the keys of a
    dictionary, the characters of a string; an atom is not iterable. *)
Definition iterate (o : object) : result (list object) :=
  match o with
  | OList items => Return items
  | ODict items => Return (map (fun kv => OStr (fst kv)) items)
  | OStr s => Return (map (fun c => OStr (String c EmptyString)) (String.list_ascii_of_string s))
  | OAtom _ => Raise TypeError
  end.
End Objects.

(** ** More of the kernel, the host and the wrappers *)

(** Meshing: [Triangulation shape deflection face] is the triangulation
    that [BRep_Tool().Triangulation(face, location)] finds on a face of
    [shape] once [BRepMesh_IncrementalMesh(shape, deflection)] has run. *)
Class MoreKernel `{Kernel} : Type := {
  Poly_Triangulation : Type;
  TColgp_Array1OfPnt : Type;
  Triangulation : TopoDS_Shape -> float -> TopoDS_Shape -> Poly_Triangulation;
  Nodes : Poly_Triangulation -> TColgp_Array1OfPnt;
  NbTriangles : Poly_Triangulation -> Z;
  (* triangulation.Triangles().Value(i).Get() *)
  Triangle : Poly_Triangulation -> Z -> Z * Z * Z;
  (* BRepBuilderAPI_NurbsConvert(shape, copy).Shape() *)
  BRepBuilderAPI_NurbsConvert : TopoDS_Shape -> bool -> TopoDS_Shape;
  (* Geom_BSplineSurface(poles, uknots, vknots, umults, vmults, udegree,
     vdegree, uperiodic, vperiodic), the last four as Python hands them over *)
  Geom_BSplineSurface_new `{Atoms} :
    TColgp_Array2OfPnt -> TColStd_Array1OfReal -> TColStd_Array1OfReal ->
    TColStd_Array1OfInteger -> TColStd_Array1OfInteger ->
    object -> object -> object -> object -> Geom_BSplineSurface;
}.

Class MoreHost `{Host} `{Atoms} : Type := {
  Mesh_new : Mesh;                                                  (* Mesh() *)
  Mesh_from_vertices_and_faces : list Point -> list (list Z) -> Mesh;
  Mesh_join : Mesh -> Mesh -> Mesh;                 (* mesh after mesh.join(other) *)
  Point_from_data : object -> Point;                             (* Point.from_data *)
  Mesh_from_polygons : list (list Point) -> Mesh;
  (* compas.utilities *)
  linspace : float -> float -> Z -> list float;
  meshgrid : list float -> list float -> list (list float) * list (list float);
}.

Class MoreWrappers `{Wrappers} `{!MoreKernel} `{Atoms} : Type := {
  (* compas_occ.conversions / compas_occ.interop *)
  points1_from_array1 : TColgp_Array1OfPnt -> list Point;
  array2_from_points2 : list Point -> TColgp_Array2OfPnt;
  array1_from_floats1 : object -> TColStd_Array1OfReal;
  array1_from_integers1 : object -> TColStd_Array1OfInteger;
  (* compas_occ.geometry and compas_occ.brep *)
  OCCNurbsCurve : Type;
  OCCNurbsSurface : Type;
  BRepVertex_point : BRepVertex -> Point;                         (* vertex.point *)
  BRepEdge_nurbscurve : BRepEdge -> OCCNurbsCurve;                (* edge.nurbscurve *)
  BRepFace_nurbssurface : BRepFace -> OCCNurbsSurface;            (* face.nurbssurface *)
  (* OCCNurbsSurface.from_data and OCCNurbsCurve.from_data, on data that
     they accept; what they do on other objects is not modelled *)
  OCCNurbsSurface_from_data : object -> OCCNurbsSurface;
  OCCNurbsCurve_from_data : object -> OCCNurbsCurve;
  BRepEdge_from_curve : OCCNurbsCurve -> BRepEdge;
  BRepLoop_from_edges : list BRepEdge -> BRepLoop;
  BRepFace_from_surface : OCCNurbsSurface -> BRepLoop -> BRepFace;
  (* the items of a curve's or a surface's data dictionary *)
  data_items : geometry_data -> list (string * object);
}.

Class MeshWrappers `{MoreWrappers} `{!Host} : Type := {
  OCCNurbsSurface_from_face : TopoDS_Shape -> OCCNurbsSurface;   (* OCCNurbsSurface.from_face *)
  OCCNurbsSurface_to_tesselation : OCCNurbsSurface -> Mesh;      (* srf.to_tesselation() *)
}.

(** ** brep/brep.py: the rest of class BRep *)

Module BrepMore.
Section BrepMore.
Context `{Host} `{!GpKernel} `{!Kernel} `{!Wrappers}.
Context `{!Atoms} `{!MoreKernel} `{!MoreHost} `{!MoreWrappers} `{!MeshWrappers}.
Import Brep.

(** *** Properties *)

Definition points : py BRep (list Point) :=
  let* vs := vertices in
  ret (fold_left (fun points vertex => points ++ [BRepVertex_point vertex]) vs []).

Definition curves : py BRep (list OCCNurbsCurve) :=
  let* es := edges in
  ret (fold_left (fun curves edge => curves ++ [BRepEdge_nurbscurve edge]) es []).

Definition surfaces : py BRep (list OCCNurbsSurface) :=
  let* fs := faces in
  ret (fold_left (fun surfaces face => surfaces ++ [BRepFace_nurbssurface face]) fs []).

(** *** The [data] setter *)

(** [for curvedata in facedata["boundary"]: ... edges.append(edge)] *)
Definition edges_of (boundary : list object) : list BRepEdge :=
  fold_left (fun edges curvedata =>
               let curve := OCCNurbsCurve_from_data curvedata in
               let edge := BRepEdge_from_curve curve in
               edges ++ [edge])
            boundary [].

(** The body of the loop over [data["faces"]]: the face of one dictionary. *)
Definition face_of_data (facedata : object) : result BRepFace :=
  let? s := getitem facedata "surface" in
  let surface := OCCNurbsSurface_from_data s in
  let? b := getitem facedata "boundary" in
  let? boundary := iterate b in
  let edges := edges_of boundary in
  let loop := BRepLoop_from_edges edges in
  let face := BRepFace_from_surface surface loop in
  let? hs := getitem facedata "holes" in
  let? _ := iterate hs in                        (* for hole in ...: pass *)
  Return face.

Fixpoint faces_loop (todo : list object) (faces : list BRepFace) : result (list BRepFace) :=
  match todo with
  | [] => Return faces
  | facedata :: rest =>
      match face_of_data facedata with
      | Return face => faces_loop rest (faces ++ [face])
      | Raise e => Raise e
      end
  end.

Definition set_data (self : ref) (data : object) : py heap unit :=
  let* fs := lift (getitem data "faces") in
  let* fs := lift (iterate fs) in
  let* faces := lift (faces_loop fs []) in
  let* rebuilt := from_faces faces in
  let* shape := call rebuilt occ_shape in
  call self (set_occ_shape shape).

(** The dictionary that the [data] getter returns, as the Python object it
    is: the data of a curve or a surface is a dictionary itself. *)
Fixpoint dump (v : value geometry_data) : object :=
  match v with
  | VLeaf d => ODict (data_items d)
  | VList items => OList (map dump items)
  | VDict items => ODict (map (fun kv => (fst kv, dump (snd kv))) items)
  end.

(** *** Converters *)

(** [range(1, n)] *)
Definition range_from_1 (n : Z) : list Z := map Z.of_nat (seq 1 (Z.to_nat (n - 1))).

(** [for i in range(1, triangulation.NbTriangles() + 1): ... faces.append(...)] *)
Definition triangles_of (triangulation : Poly_Triangulation) : list (list Z) :=
  fold_left (fun faces i =>
               let '(u, v, w) := Triangle triangulation i in
               faces ++ [[u - 1; v - 1; w - 1]%Z])
            (range_from_1 (NbTriangles triangulation + 1)) [].

Definition to_tesselation (linear_deflection : float) : py BRep Mesh :=
  let mesh := Mesh_new in
  let* shape := occ_shape in
  let* shape := kernel_argument shape in         (* BRepMesh_IncrementalMesh(shape, ...) *)
  let* fs := faces in
  ret (fold_left
         (fun mesh face =>
            let triangulation := Triangulation shape linear_deflection (occ_face face) in
            let nodes := Nodes triangulation in
            let vertices := points1_from_array1 nodes in
            let faces := triangles_of triangulation in
            let other := Mesh_from_vertices_and_faces vertices faces in
            Mesh_join mesh other)
         fs mesh).

(** [to_meshes(u, v)]: the faces of the shape converted to NURBS, each
    tesselated through its surface. *)
Definition to_meshes (u v : Z) (self : ref) : py heap (list Mesh) :=
  let* shape := call self occ_shape in
  let* shape := kernel_argument shape in
  let converter := BRepBuilderAPI_NurbsConvert shape false in
  let* brep := cls in                                             (* BRep() *)
  call brep (set_occ_shape (Some converter)) ;;
  let* fs := call brep faces in
  ret (fold_left
         (fun meshes face =>
            let srf := OCCNurbsSurface_from_face (occ_face face) in
            let mesh := OCCNurbsSurface_to_tesselation srf in
            meshes ++ [mesh])
         fs []).
End BrepMore.
End BrepMore.

(** ** geometry/surfaces/bspline.py: the data of a surface *)

Module BsplineMore.
Section BsplineMore.
Context `{Host} `{!GpKernel} `{!Kernel} `{!Wrappers}.
Context `{!Atoms} `{!MoreKernel} `{!MoreHost} `{!MoreWrappers}.
Import Bspline.

(** [from_parameters], called with a list of points for the poles, as the
    [data] setter and [from_data] have them. *)
Definition from_parameters (poles : list Point)
           (u_knots v_knots u_mults v_mults u_degree v_degree
            is_u_periodic is_v_periodic : object) : BSplineSurface :=
  mkBSplineSurface
    (Some (Geom_BSplineSurface_new
             (array2_from_points2 poles)
             (array1_from_floats1 u_knots)
             (array1_from_floats1 v_knots)
             (array1_from_integers1 u_mults)
             (array1_from_integers1 v_mults)
             u_degree v_degree is_u_periodic is_v_periodic)).

(** [[Point.from_data(point) for point in data['points']]] *)
Definition poles_of (data : object) : result (list Point) :=
  let? points := getitem data "points" in
  let? points := iterate points in
  Return (map Point_from_data points).

Definition from_data (data : object) : result BSplineSurface :=
  let? poles := poles_of data in
  let? u_knots := getitem data "u_knots" in
  let? v_knots := getitem data "v_knots" in
  let? u_mults := getitem data "u_mults" in
  let? v_mults := getitem data "v_mults" in
  let? u_degree := getitem data "u_degree" in
  let? v_degree := getitem data "v_degree" in
  let? is_u_periodic := getitem data "is_u_periodic" in
  let? is_v_periodic := getitem data "is_v_periodic" in
  Return (from_parameters poles u_knots v_knots u_mults v_mults
                          u_degree v_degree is_u_periodic is_v_periodic).

(** The [data] setter. *)
Definition set_data (data : object) : py BSplineSurface unit :=
  let* poles := lift (poles_of data) in
  let* u_knots := lift (getitem data "u_knots") in
  let* v_knots := lift (getitem data "v_knots") in
  let* u_mults := lift (getitem data "u_mults") in
  let* v_mults := lift (getitem data "v_mults") in
  let* u_degree := lift (getitem data "u_degree") in
  let* v_degree := lift (getitem data "v_degree") in
  let* is_u_periodic := lift (getitem data "is_u_periodic") in
  let* is_v_periodic := lift (getitem data "is_v_periodic") in
  put (mkBSplineSurface
         (Some (Geom_BSplineSurface_new
                  (array2_from_points2 poles)
                  (array1_from_floats1 u_knots)
                  (array1_from_floats1 v_knots)
                  (array1_from_integers1 u_mults)
                  (array1_from_integers1 v_mults)
                  u_degree v_degree is_u_periodic is_v_periodic))).

(** *** The quad mesh of a surface *)

Definition uspace (n : Z) : py BSplineSurface (list float) :=
  let* (umin, umax) := u_domain in
  ret (linspace umin umax n).

Definition vspace (n : Z) : py BSplineSurface (list float) :=
  let* (vmin, vmax) := v_domain in
  ret (linspace vmin vmax n).

(** [v or u], for [v] an integer or [None]: [None] and 0 are false. *)
Definition or_ (v : option Z) (u : Z) : Z :=
  match v with
  | None => u
  | Some 0%Z => u
  | Some v => v
  end.

(** [M[i][j]] on a list of lists, for [i] and [j] that are not negative. *)
Definition index2 (M : list (list float)) (i j : Z) : result float :=
  match nth_error M (Z.to_nat i) with
  | None => Raise IndexError
  | Some row =>
      match nth_error row (Z.to_nat j) with
      | None => Raise IndexError
      | Some x => Return x
      end
  end.

(** [self.point_at(U[i][j], V[i][j])] *)
Definition corner (U V : list (list float)) (i j : Z) : py BSplineSurface Point :=
  let* u := lift (index2 U i j) in
  let* v := lift (index2 V i j) in
  point_at u v.

(** [for j in range(v - 1): ... quads.append([a, b, c, d])] *)
Fixpoint inner_loop (U V : list (list float)) (i : Z) (js : list Z)
         (quads : list (list Point)) : py BSplineSurface (list (list Point)) :=
  match js with
  | [] => ret quads
  | j :: rest =>
      let* a := corner U V (i + 0) (j + 0) in
      let* b := corner U V (i + 0) (j + 1) in
      let* c := corner U V (i + 1) (j + 1) in
      let* d := corner U V (i + 1) (j + 0) in
      inner_loop U V i rest (quads ++ [[a; b; c; d]])
  end.

(** [for i in range(u - 1): for j in range(v - 1): ...] *)
Fixpoint outer_loop (U V : list (list float)) (is_ js : list Z)
         (quads : list (list Point)) : py BSplineSurface (list (list Point)) :=
  match is_ with
  | [] => ret quads
  | i :: rest =>
      let* quads := inner_loop U V i js quads in
      outer_loop U V rest js quads
  end.

(** The quads that [to_vizmesh] hands to [Mesh.from_polygons]. *)
Definition vizmesh_quads (u : Z) (v : option Z) : py BSplineSurface (list (list Point)) :=
  let v := or_ v u in
  let* us := uspace u in
  let* vs := vspace v in
  let (U, V) := meshgrid us vs in
  outer_loop U V (range (u - 1)) (range (v - 1)) [].

Definition to_vizmesh (u : Z) (v : option Z) : py BSplineSurface Mesh :=
  let* quads := vizmesh_quads u v in
  ret (Mesh_from_polygons quads).
End BsplineMore.
End BsplineMore.

(** ** A small kernel to run the code on

    Floats are rationals.  A shape is its kind and the numbers of the faces
    it is made of; the explorer yields one face per number and nothing of
    the other kinds.  A boolean operator is done when both operands have a
    face, and works on the face numbers as on sets.  The sewer turns what
    it was given into a shell; the fixer gives back a shell with the faces
    in reverse order.  A surface is the plane
    z = c over the unit square. *)

Module Toy.

Abbreviation Q := QArith_base.Q.
Definition q (n : Z) : Q := QArith_base.Qmake n 1.

Definition scalar : Scalar :=
  {| float := Q; fadd := QArith_base.Qplus; fmul := QArith_base.Qmult;
     f0 := q 0; f1 := q 1; fneg_half := QArith_base.Qmake (-1) 2 |}.

Definition gp : @GpKernel scalar :=
  {| Dir_X := fun d => match d with Gp_Dir x _ _ => x end;
     Dir_Y := fun d => match d with Gp_Dir _ y _ => y end;
     Dir_Z := fun d => match d with Gp_Dir _ _ z => z end;
     Ax3_Location := fun a => match a with Gp_Ax3 p _ => p end;
     Ax3_XDirection := fun _ => @Gp_Dir scalar (q 1) (q 0) (q 0);
     Ax3_YDirection := fun _ => @Gp_Dir scalar (q 0) (q 1) (q 0) |}.

Inductive shape : Type := Cells (kind : TopAbs_ShapeEnum) (numbers : list Z).

Definition kind_of (s : shape) : TopAbs_ShapeEnum := match s with Cells k _ => k end.
Definition numbers_of (s : shape) : list Z := match s with Cells _ ns => ns end.

Definition member (n : Z) (ns : list Z) : bool := existsb (Z.eqb n) ns.

Definition has_face (s : shape) : bool :=
  match numbers_of s with [] => false | _ :: _ => true end.

Definition done (a b : shape) : bool := has_face a && has_face b.

Definition cut (a b : shape) : BooleanOperation shape :=
  mkBooleanOperation (done a b)
    (Cells TopAbs_SOLID (filter (fun n => negb (member n (numbers_of b))) (numbers_of a))).

Definition common (a b : shape) : BooleanOperation shape :=
  mkBooleanOperation (done a b)
    (Cells TopAbs_SOLID (filter (fun n => member n (numbers_of b)) (numbers_of a))).

Definition fuse (a b : shape) : BooleanOperation shape :=
  mkBooleanOperation (done a b)
    (Cells TopAbs_SOLID
       (numbers_of a ++ filter (fun n => negb (member n (numbers_of a))) (numbers_of b))).

Definition explorer (s : shape) (kind : TopAbs_ShapeEnum) : list shape :=
  if ShapeEnum_eqb kind TopAbs_FACE
  then map (fun n => Cells TopAbs_FACE [n]) (numbers_of s)
  else [].

Definition sewed (sewer : Sewing shape) : shape :=
  match sewing_loaded sewer with
  | Some s => if sewing_performed sewer then Cells TopAbs_SHELL (numbers_of s) else s
  | None => Cells TopAbs_COMPOUND []
  end.

Definition fixed (fixer : ShapeFix shape) : shape :=
  if fix_performed fixer
  then Cells TopAbs_SHELL (rev (numbers_of (fix_shape fixer)))
  else fix_shape fixer.

Definition unit_square (c : Q) : @float scalar * @float scalar * @float scalar * @float scalar :=
  (q 0, q 1, q 0, q 1).

Definition kernel : @Kernel scalar :=
  {| TopoDS_Shape := shape;
     ShapeType := kind_of;
     TopExp_Explorer := explorer;
     TopoDS_Shell := Cells TopAbs_SHELL [];
     MakeShell := fun s => s;
     Add := fun s f => Cells (kind_of s) (numbers_of s ++ numbers_of f);
     BRepPrimAPI_MakeBox := fun _ _ _ _ => Cells TopAbs_SOLID [1; 2; 3; 4; 5; 6]%Z;
     BRepPrimAPI_MakeSphere := fun _ _ => Cells TopAbs_SOLID [7]%Z;
     BRepPrimAPI_MakeCylinder := fun _ _ _ => Cells TopAbs_SOLID [8; 9; 10]%Z;
     BRepAlgoAPI_Cut := cut;
     BRepAlgoAPI_Common := common;
     BRepAlgoAPI_Fuse := fuse;
     SewedShape := sewed;
     Shell := fixed;
     Geom_BSplineSurface := Q;
     TColgp_Array2OfPnt := list (list (@gp_Pnt scalar));
     TColStd_Array1OfReal := list Q;
     TColStd_Array1OfInteger := list Z;
     Poles := fun c => [[@Gp_Pnt scalar (q 0) (q 0) c; @Gp_Pnt scalar (q 0) (q 1) c];
                        [@Gp_Pnt scalar (q 1) (q 0) c; @Gp_Pnt scalar (q 1) (q 1) c]];
     UKnots := fun _ => [q 0; q 1];
     VKnots := fun _ => [q 0; q 1];
     UMultiplicities := fun _ => [2; 2]%Z;
     VMultiplicities := fun _ => [2; 2]%Z;
     UDegree := fun _ => 1%Z;
     VDegree := fun _ => 1%Z;
     Bounds := unit_square;
     IsUPeriodic := fun _ => false;
     IsVPeriodic := fun _ => false;
     Value := fun c u v => @Gp_Pnt scalar u v c;
     D1 := fun c u v => (@Gp_Pnt scalar u v c,
                         @Gp_Vec scalar (q 1) (q 0) (q 0), @Gp_Vec scalar (q 0) (q 1) (q 0));
     Geom_Line := @gp_Lin scalar;
     Geom_Line_new := fun l => l;
     GeomAPI_IntCS := list (@gp_Pnt scalar);
     GeomAPI_IntCS_new := fun l c => match l with Gp_Lin p _ =>
                            [@Gp_Pnt scalar (Pnt_X p) (Pnt_Y p) c] end;
     NbPoints := fun ps => Z.of_nat (length ps);
     IntCS_Point := fun ps i => nth (Z.to_nat (i - 1)) ps (@Gp_Pnt scalar (q 0) (q 0) (q 0)) |}.

#[local] Existing Instance scalar.
#[local] Existing Instance gp.
#[local] Existing Instance kernel.

(** The wrappers over the small kernel: a face has one loop, unless its
    number is negative (then none) or above 100 (then a second, inner one);
    a loop has one edge per number. *)
Definition face_loops (f : @BRepFace scalar kernel) : list (@BRepLoop scalar kernel) :=
  match numbers_of (occ_face f) with
  | n :: _ =>
      if (n <? 0)%Z then []
      else if (100 <? n)%Z
           then [mkBRepLoop (Cells TopAbs_WIRE [n]); mkBRepLoop (Cells TopAbs_WIRE [(- n)%Z])]
           else [mkBRepLoop (Cells TopAbs_WIRE [n])]
  | [] => []
  end.

Definition wrappers : @Wrappers scalar kernel :=
  {| triangle_to_face := fun _ => Cells TopAbs_FACE [3%Z];
     quad_to_face := fun _ => Cells TopAbs_FACE [4%Z];
     ngon_to_face := fun ps => Cells TopAbs_FACE [Z.of_nat (length ps)];
     points2_from_array2 :=
       map (map (fun p : @gp_Pnt scalar => @mkPoint scalar (Pnt_X p) (Pnt_Y p) (Pnt_Z p)));
     BRepFace_is_valid := fun f => has_face (occ_face f);
     BRepFace_fix := fun f => mkBRepFace (Cells TopAbs_FACE [0%Z]);
     BRepFace_loops := face_loops;
     BRepLoop_edges := fun l =>
       map (fun n => mkBRepEdge (Cells TopAbs_EDGE [n])) (numbers_of (occ_wire l));
     geometry_data := list Z;
     BRepEdge_nurbscurve_data := fun e => numbers_of (occ_edge e);
     BRepFace_nurbssurface_data := fun f => numbers_of (occ_face f) |}.

(** Two solids that share face 2, and an empty compound. *)
Definition A : @Brep.BRep scalar kernel := Brep.mkBRep (Some (Cells TopAbs_SOLID [1; 2]%Z)).
Definition B : @Brep.BRep scalar kernel := Brep.mkBRep (Some (Cells TopAbs_SOLID [2; 3]%Z)).
Definition E : @Brep.BRep scalar kernel := Brep.mkBRep (Some (Cells TopAbs_COMPOUND [])).
Definition objects : @Brep.heap scalar kernel := [A; B; E].

End Toy.


(** ** More of the small kernel

    Atoms are integers.  The data of a curve or a surface is the dictionary
    of its numbers under the key "numbers"; a curve or surface read back
    from data is the list of those numbers.  A face is triangulated as one
    triangle when its number is 3 and as the two triangles of a quad
    otherwise. *)

Module ToyMore.

Definition atoms : Atoms := {| atom := Z |}.

#[local] Existing Instance Toy.scalar.
#[local] Existing Instance Toy.gp.
#[local] Existing Instance Toy.kernel.
#[local] Existing Instance Toy.wrappers.
#[local] Existing Instance atoms.

Definition triangulation_of (face : Toy.shape) : list (Z * Z * Z) :=
  match Toy.numbers_of face with
  | 3%Z :: _ => [(1, 2, 3)%Z]
  | _ => [(1, 2, 3)%Z; (1, 3, 4)%Z]
  end.

Definition nodes_of (triangulation : list (Z * Z * Z)) : list (@gp_Pnt Toy.scalar) :=
  let corner x y := @Gp_Pnt Toy.scalar (Toy.q x) (Toy.q y) (Toy.q 0) in
  match triangulation with
  | [_] => [corner 0 0; corner 1 0; corner 0 1]%Z
  | _ => [corner 0 0; corner 1 0; corner 1 1; corner 0 1]%Z
  end.

Definition numbers_in (o : object) : list Z :=
  match o with
  | ODict [("numbers", OList items)] =>
      map (fun item => match item with OAtom n => n | _ => 0%Z end) items
  | _ => []
  end.

Definition kernel : @MoreKernel Toy.scalar Toy.kernel :=
  {| Poly_Triangulation := list (Z * Z * Z);
     TColgp_Array1OfPnt := list (@gp_Pnt Toy.scalar);
     Triangulation := fun _ _ face => triangulation_of face;
     Nodes := nodes_of;
     NbTriangles := fun t => Z.of_nat (length t);
     Triangle := fun t i => nth (Z.to_nat (i - 1)) t (0, 0, 0)%Z;
     BRepBuilderAPI_NurbsConvert := fun s _ => Toy.Cells TopAbs_COMPOUND (Toy.numbers_of s);
     Geom_BSplineSurface_new := fun _ poles _ _ _ _ _ _ _ _ =>
       Toy.q (Z.of_nat (length (concat poles))) |}.

#[local] Existing Instance kernel.

Definition wrappers : @MoreWrappers Toy.scalar Toy.kernel Toy.wrappers kernel atoms :=
  {| points1_from_array1 :=
       map (fun p : @gp_Pnt Toy.scalar => @mkPoint Toy.scalar (Pnt_X p) (Pnt_Y p) (Pnt_Z p));
     array2_from_points2 := fun points =>
       [map (fun p : @Point Toy.scalar => @Gp_Pnt Toy.scalar (px p) (py_ p) (pz p)) points];
     array1_from_floats1 := fun o =>
       map Toy.q (numbers_in (ODict [("numbers", o)]));
     array1_from_integers1 := fun o => numbers_in (ODict [("numbers", o)]);
     OCCNurbsCurve := list Z;
     OCCNurbsSurface := list Z;
     BRepVertex_point := fun v =>
       @mkPoint Toy.scalar (Toy.q (hd 0%Z (Toy.numbers_of (occ_vertex v)))) (Toy.q 0) (Toy.q 0);
     BRepEdge_nurbscurve := fun e => Toy.numbers_of (occ_edge e);
     BRepFace_nurbssurface := fun f => Toy.numbers_of (occ_face f);
     OCCNurbsSurface_from_data := numbers_in;
     OCCNurbsCurve_from_data := numbers_in;
     BRepEdge_from_curve := fun c => mkBRepEdge (Toy.Cells TopAbs_EDGE c);
     BRepLoop_from_edges := fun es =>
       mkBRepLoop (Toy.Cells TopAbs_WIRE (concat (map (fun e => Toy.numbers_of (occ_edge e)) es)));
     BRepFace_from_surface := fun s _ => mkBRepFace (Toy.Cells TopAbs_FACE s);
     data_items := fun d : list Z => [("numbers", OList (map OAtom d))] |}.

Definition origin : @Point Toy.scalar := mkPoint (Toy.q 0) (Toy.q 0) (Toy.q 0).

Definition translate (p : @Point Toy.scalar) (t : @Vector Toy.scalar) : @Point Toy.scalar :=
  mkPoint (fadd (px p) (vx t)) (fadd (py_ p) (vy t)) (fadd (pz p) (vz t)).

Definition mesh : Type := list (@Point Toy.scalar) * list (list Z).

Definition host : @Host Toy.scalar :=
  {| Frame := @Point Toy.scalar * @Vector Toy.scalar * @Vector Toy.scalar;
     Frame_new := fun p x y => (p, x, y);
     Frame_point := fun f => fst (fst f);
     Frame_xaxis := fun f => snd (fst f);
     Frame_yaxis := fun f => snd f;
     Frame_zaxis := fun _ => mkVector (Toy.q 0) (Toy.q 0) (Toy.q 1);
     Frame_from_plane := fun pl =>
       (plane_point pl, mkVector (Toy.q 1) (Toy.q 0) (Toy.q 0),
        mkVector (Toy.q 0) (Toy.q 1) (Toy.q 0));
     Transformation := @Vector Toy.scalar;
     Translation_from_vector := fun v => v;
     Frame_transformed := fun f t => (translate (fst (fst f)) t, snd (fst f), snd f);
     Line_direction := fun l =>
       mkVector (QArith_base.Qminus (px (end_ l)) (px (start l)))
                (QArith_base.Qminus (py_ (end_ l)) (py_ (start l)))
                (QArith_base.Qminus (pz (end_ l)) (pz (start l)));
     Box := @Point Toy.scalar * Toy.Q;
     Box_frame := fun b =>
       (fst b, mkVector (Toy.q 1) (Toy.q 0) (Toy.q 0), mkVector (Toy.q 0) (Toy.q 1) (Toy.q 0));
     xsize := snd;
     ysize := snd;
     zsize := snd;
     Mesh := mesh;
     fkey := nat;
     Mesh_faces := fun m => seq 0 (length (snd m));
     Mesh_face_coordinates := fun m k =>
       map (fun i => nth (Z.to_nat i) (fst m) origin) (nth k (snd m) []) |}.

#[local] Existing Instance host.

Definition point_of (o : object) : @Point Toy.scalar :=
  match o with
  | OList [OAtom x; OAtom y; OAtom z] => mkPoint (Toy.q x) (Toy.q y) (Toy.q z)
  | _ => origin
  end.

Definition more_host : @MoreHost Toy.scalar host atoms :=
  {| Mesh_new := ([], []);
     Mesh_from_vertices_and_faces := fun vs fs => (vs, fs);
     Mesh_join := fun m o =>
       (fst m ++ fst o, snd m ++ map (map (Z.add (Z.of_nat (length (fst m))))) (snd o));
     Point_from_data := point_of;
     Mesh_from_polygons := fun polygons =>
       (concat polygons, map (fun p => [Z.of_nat (length p)]) polygons);
     linspace := fun a _ n =>
       map (fun k => QArith_base.Qplus a (Toy.q (Z.of_nat k))) (seq 0 (Z.to_nat n));
     meshgrid := fun xs ys =>
       (map (fun _ => xs) ys, map (fun y => map (fun _ => y) xs) ys) |}.

#[local] Existing Instance wrappers.

Definition tesselation_of (srf : list Z) : mesh := ([], [srf]).

Definition mesh_wrappers
  : @MeshWrappers Toy.scalar Toy.kernel Toy.wrappers kernel atoms wrappers host :=
  @Build_MeshWrappers Toy.scalar Toy.kernel Toy.wrappers kernel atoms wrappers host
    (fun face : Toy.shape => Toy.numbers_of face) tesselation_of.

(** The dictionary of a face of one edge, with and without the key "holes",
    and with a hole written into it. *)
Definition numbers (n : Z) : object := ODict [("numbers", OList [OAtom n])].

Definition face_dict (n : Z) (holes : list object) : object :=
  ODict [("boundary", OList [numbers n]); ("surface", numbers n); ("holes", OList holes)].

Definition face_dict_without_holes (n : Z) : list (string * object) :=
  [("boundary", OList [numbers n]); ("surface", numbers n)].

(** The plane z = 7 and the quads of its 3 by 3 grid. *)
Definition plane : @Bspline.BSplineSurface Toy.scalar Toy.kernel :=
  Bspline.mkBSplineSurface (Some (Toy.q 7)).

Definition plane_quads : list (list (@Point Toy.scalar)) :=
  Eval vm_compute in
    match @BsplineMore.vizmesh_quads Toy.scalar host Toy.kernel atoms more_host
            3 None plane with
    | (Return quads, _) => quads
    | (Raise _, _) => []
    end.

(** The data dictionary of a bilinear patch over four poles. *)
Definition patch : object :=
  let pole x y := OList [OAtom x; OAtom y; OAtom 0%Z] in
  ODict [("points", OList [pole 0 0; pole 0 1; pole 1 0; pole 1 1]%Z);
         ("u_knots", OList [OAtom 0%Z; OAtom 1%Z]);
         ("v_knots", OList [OAtom 0%Z; OAtom 1%Z]);
         ("u_mults", OList [OAtom 2%Z; OAtom 2%Z]);
         ("v_mults", OList [OAtom 2%Z; OAtom 2%Z]);
         ("u_degree", OAtom 1%Z);
         ("v_degree", OAtom 1%Z);
         ("is_u_periodic", OAtom 0%Z);
         ("is_v_periodic", OAtom 0%Z)].

End ToyMore.

(** * Properties *)

(** ** The primitive conversion layer *)

Section PrimitivesFacts.
Context `{Host} `{!GpKernel}.

(** A point and a vector come back unchanged from the kernel's point and
    vector. *)
Lemma point_round_trip (p : Point) :
  Primitives.compas_point_from_occ_point (Primitives.compas_point_to_occ_point p) = p.
Proof. destruct p; reflexivity. Qed.

Lemma vector_round_trip (v : Vector) :
  Primitives.compas_vector_from_occ_vector (Primitives.compas_vector_to_occ_vector v) = v.
Proof. destruct v; reflexivity. Qed.

Lemma occ_point_round_trip (p : gp_Pnt) :
  Primitives.compas_point_to_occ_point (Primitives.compas_point_from_occ_point p) = p.
Proof. destruct p; reflexivity. Qed.

(** The conversion of an axis back from the kernel raises on every axis. *)
Lemma axis_from_occ_raises (a : gp_Ax1) :
  Primitives.compas_axis_from_occ_axis a = Raise TypeError.
Proof. reflexivity. Qed.
End PrimitivesFacts.

(** C2, as stated, fails: the layer has a conversion of a line to the
    kernel's line, and none from a kernel structure back to a line, so the
    line has no bidirectional mapping. *)
Lemma line_is_not_bidirectional :
  Primitives.provides_to_occ Primitives.line = true /\
  Primitives.provides_from_occ Primitives.line = false /\
  Primitives.bidirectional Primitives.line = false.
Proof. repeat split; reflexivity. Qed.

(** C2, amended: for each of the nine generic primitive types the layer has
    a conversion to a native structure of the kernel; a conversion from a
    native structure back to the generic type exists for the point and the
    vector, and for no other of the nine. *)
Theorem conversions_provided (p : Primitives.primitive) :
  Primitives.provides_to_occ p = true /\
  (Primitives.provides_from_occ p = true <->
   p = Primitives.point \/ p = Primitives.vector).
Proof.
  destruct p; (split; [reflexivity | split]);
    try (intros _; (left; reflexivity) || (right; reflexivity));
    try (cbv; discriminate);
    try (intros [E | E]; discriminate E);
    try (intros _; reflexivity).
Qed.

(** ** The BRep container *)

Section BrepFacts.
Context `{Host} `{!GpKernel} `{!Kernel} `{!Wrappers}.
Import Brep.

(** *** Loops that append *)

Lemma fold_left_append {A B} (f : A -> B) (l : list A) (acc : list B) :
  fold_left (fun acc x => acc ++ [f x]) l acc = acc ++ map f l.
Proof.
  revert acc; induction l as [|x l IH]; intros acc; simpl.
  - now rewrite app_nil_r.
  - rewrite IH, <- app_assoc. reflexivity.
Qed.

Lemma fold_left_pass {A B} (l : list A) (acc : list B) :
  fold_left (fun acc _ => acc) l acc = acc.
Proof. induction l; simpl; auto. Qed.

Lemma explore_app {W} (wrap : TopoDS_Shape -> W) (explorer : list TopoDS_Shape) (acc : list W) :
  explore wrap explorer acc = acc ++ map wrap explorer.
Proof.
  revert acc; induction explorer as [|current next IH]; intros acc; simpl.
  - now rewrite app_nil_r.
  - rewrite IH, <- app_assoc. reflexivity.
Qed.

Lemma traverse_owned {W} (wrap : TopoDS_Shape -> W) (kind : TopAbs_ShapeEnum) (s : TopoDS_Shape) :
  traverse wrap kind (mkBRep (Some s))
  = (Return (map wrap (TopExp_Explorer s kind)), mkBRep (Some s)).
Proof. unfold traverse, bind; simpl. now rewrite explore_app. Qed.

(** C9: on a BRep that owns the shape [s], each of [vertices], [edges],
    [loops] and [faces] returns one wrapper per sub-shape that the kernel
    explorer of that kind (vertex, edge, wire, face) enumerates on [s], in
    the explorer's order, and the BRep still owns [s] afterwards. *)
Theorem traversals_follow_the_explorer (s : TopoDS_Shape) :
  vertices (mkBRep (Some s))
  = (Return (map mkBRepVertex (TopExp_Explorer s TopAbs_VERTEX)), mkBRep (Some s)) /\
  edges (mkBRep (Some s))
  = (Return (map mkBRepEdge (TopExp_Explorer s TopAbs_EDGE)), mkBRep (Some s)) /\
  loops (mkBRep (Some s))
  = (Return (map mkBRepLoop (TopExp_Explorer s TopAbs_WIRE)), mkBRep (Some s)) /\
  faces (mkBRep (Some s))
  = (Return (map mkBRepFace (TopExp_Explorer s TopAbs_FACE)), mkBRep (Some s)).
Proof. repeat split; apply traverse_owned. Qed.

(** *** Sewing and fixing *)

Lemma sew_owned (s : TopoDS_Shape) :
  sew (mkBRep (Some s))
  = (Return tt,
     mkBRep (Some (if (1 <? length (TopExp_Explorer s TopAbs_FACE))%nat
                   then SewedShape (Perform (Load BRepBuilderAPI_Sewing s))
                   else s))).
Proof.
  unfold sew, bind, faces. rewrite traverse_owned, length_map.
  destruct (1 <? length (TopExp_Explorer s TopAbs_FACE))%nat; reflexivity.
Qed.

Lemma fix_owned (s : TopoDS_Shape) :
  fix_ (mkBRep (Some s))
  = (Return tt,
     mkBRep (Some (if ShapeEnum_eqb (ShapeType s) TopAbs_SHELL
                   then Shell (ShapeFix_Perform (ShapeFix_Shell s))
                   else s))).
Proof.
  unfold fix_, bind, type; simpl.
  destruct (ShapeEnum_eqb (ShapeType s) TopAbs_SHELL); reflexivity.
Qed.

Lemma ShapeEnum_eqb_eq (a b : TopAbs_ShapeEnum) : ShapeEnum_eqb a b = true <-> a = b.
Proof. destruct a, b; simpl; split; congruence. Qed.

(** C10: on a BRep that owns the shape [s], [sew] leaves the shape as it
    is when the BRep has at most one face and otherwise replaces it by the
    sewed shape of a kernel sewer loaded with [s] and performed; [fix]
    leaves the shape as it is when its type is not a shell and otherwise
    replaces it by the shell of a kernel shell-fixer built on [s] and
    performed. *)
Theorem sew_and_fix_replace_the_shape (s : TopoDS_Shape) :
  (length (TopExp_Explorer s TopAbs_FACE) <= 1 ->
     sew (mkBRep (Some s)) = (Return tt, mkBRep (Some s))) /\
  (1 < length (TopExp_Explorer s TopAbs_FACE) ->
     sew (mkBRep (Some s))
     = (Return tt, mkBRep (Some (SewedShape (Perform (Load BRepBuilderAPI_Sewing s)))))) /\
  (ShapeType s <> TopAbs_SHELL ->
     fix_ (mkBRep (Some s)) = (Return tt, mkBRep (Some s))) /\
  (ShapeType s = TopAbs_SHELL ->
     fix_ (mkBRep (Some s))
     = (Return tt, mkBRep (Some (Shell (ShapeFix_Perform (ShapeFix_Shell s)))))).
Proof.
  repeat split; intros Hc.
  - rewrite sew_owned.
    destruct (Nat.ltb_spec 1 (length (TopExp_Explorer s TopAbs_FACE))); [lia | reflexivity].
  - rewrite sew_owned.
    destruct (Nat.ltb_spec 1 (length (TopExp_Explorer s TopAbs_FACE))); [reflexivity | lia].
  - rewrite fix_owned.
    destruct (ShapeEnum_eqb (ShapeType s) TopAbs_SHELL) eqn:E; [| reflexivity].
    apply ShapeEnum_eqb_eq in E. contradiction.
  - rewrite fix_owned.
    apply ShapeEnum_eqb_eq in Hc. now rewrite Hc.
Qed.
End BrepFacts.

(** ** The data dictionary of a BRep *)

Section DataFacts.
Context `{Host} `{!GpKernel} `{!Kernel} `{!Wrappers}.
Import Brep.

(** What the claim says is recorded for a face: the curve data of the edges
    of its first loop as the boundary, its surface data, and no hole,
    whatever the other loops of the face are. *)
Let first_loop_only (face : BRepFace) (entry : value geometry_data) : Prop :=
  exists first inner,
    BRepFace_loops face = first :: inner /\
    entry = VDict [("boundary",
                    VList (map (fun edge => VLeaf (BRepEdge_nurbscurve_data edge))
                               (BRepLoop_edges first)));
                   ("surface", VLeaf (BRepFace_nurbssurface_data face));
                   ("holes", VList [])].

Lemma face_data_first_loop_only (face : BRepFace) :
  match face_data face with
  | Return entry => first_loop_only face entry
  | Raise e => e = IndexError /\ BRepFace_loops face = []
  end.
Proof.
  unfold face_data, first_loop_only.
  destruct (BRepFace_loops face) as [|first inner] eqn:E.
  - split; reflexivity.
  - exists first, inner. split; [reflexivity |].
    unfold boundary_of, holes_of.
    rewrite fold_left_append, fold_left_pass. reflexivity.
Qed.

Lemma data_loop_first_loop_only (todo : list BRepFace) (acc : list (value geometry_data)) :
  match data_loop todo acc with
  | Return out => exists entries, out = acc ++ entries /\ Forall2 first_loop_only todo entries
  | Raise e => e = IndexError /\ Exists (fun face => BRepFace_loops face = []) todo
  end.
Proof.
  revert acc; induction todo as [|face rest IH]; intros acc; simpl.
  - exists []. split; [now rewrite app_nil_r | constructor].
  - pose proof (face_data_first_loop_only face) as Hf.
    destruct (face_data face) as [entry | e].
    + specialize (IH (acc ++ [entry])).
      destruct (data_loop rest (acc ++ [entry])) as [out | e].
      * destruct IH as (entries & -> & Hall).
        exists (entry :: entries). split.
        -- now rewrite <- app_assoc.
        -- now constructor.
      * destruct IH as (-> & Hex). split; [reflexivity | now apply Exists_cons_tl].
    + destruct Hf as (-> & Hnil). split; [reflexivity | now apply Exists_cons_hd].
Qed.

(** C4: on a BRep that owns the shape [s], the [data] property either
    returns a dictionary with one entry per face of the BRep, in order,
    whose boundary is the curve data of the edges of the first loop of that
    face and whose holes are the empty list, or raises IndexError because
    some face has no loop at all; the loops of a face after the first are
    never read into the dictionary, and the BRep is left as it was. *)
Theorem data_records_first_loop_only (s : TopoDS_Shape) :
  match data (mkBRep (Some s)) with
  | (Return d, self) =>
      self = mkBRep (Some s) /\
      exists entries,
        d = VDict [("faces", VList entries)] /\
        Forall2
          (fun face entry =>
             exists first inner,
               BRepFace_loops face = first :: inner /\
               entry = VDict [("boundary",
                               VList (map (fun edge => VLeaf (BRepEdge_nurbscurve_data edge))
                                          (BRepLoop_edges first)));
                              ("surface", VLeaf (BRepFace_nurbssurface_data face));
                              ("holes", VList [])])
          (map mkBRepFace (TopExp_Explorer s TopAbs_FACE)) entries
  | (Raise e, self) =>
      self = mkBRep (Some s) /\
      e = IndexError /\
      Exists (fun face => BRepFace_loops face = [])
             (map mkBRepFace (TopExp_Explorer s TopAbs_FACE))
  end.
Proof.
  unfold data, bind, faces. rewrite traverse_owned.
  pose proof (data_loop_first_loop_only (map mkBRepFace (TopExp_Explorer s TopAbs_FACE)) [])
    as Hl.
  destruct (data_loop (map mkBRepFace (TopExp_Explorer s TopAbs_FACE)) []) as [out | e];
    simpl.
  - destruct Hl as (entries & -> & Hall). split; [reflexivity |].
    exists entries. split; [reflexivity | exact Hall].
  - destruct Hl as (-> & Hex). repeat split; auto.
Qed.
End DataFacts.

(** ** Constructors *)

Section ConstructorFacts.
Context `{Host} `{!GpKernel} `{!Kernel} `{!Wrappers}.
Import Brep.

(** *** The heap *)

Lemma lookup_new (h : heap) (o : BRep) : (h ++ [o]) !! length h = Some o.
Proof. induction h; simpl; auto. Qed.

Lemma insert_new (h : heap) (o o' : BRep) : <[length h := o']> (h ++ [o]) = h ++ [o'].
Proof. induction h; simpl; [reflexivity | now f_equal]. Qed.

Lemma call_on {A} (r : ref) (m : py BRep A) (h : heap) (self : BRep) :
  h !! r = Some self ->
  call r m h = (fst (m self), <[r := snd (m self)]> h).
Proof. intros E. unfold call. rewrite E. now destruct (m self). Qed.

Lemma call_occ_shape (r : ref) (h : heap) (self : BRep) :
  h !! r = Some self -> call r occ_shape h = (Return (_occ_shape self), h).
Proof.
  intros E. rewrite (call_on _ _ _ _ E). unfold occ_shape. simpl.
  f_equal. apply list_insert_id, E.
Qed.

(** A new object that is given a shape. *)
Lemma new_with_shape (shape : TopoDS_Shape) (h : heap) :
  (let* brep := cls in
   call brep (set_occ_shape (Some shape)) ;;
   ret brep) h
  = (Return (length h), h ++ [mkBRep (Some shape)]).
Proof.
  unfold bind, cls, ret.
  rewrite (call_on _ _ _ _ (lookup_new h __init__)). simpl.
  now rewrite insert_new.
Qed.

(** A new object that is given a shell, sewn and fixed. *)
Lemma new_sewn_and_fixed (shell : TopoDS_Shape) (h : heap) :
  exists s,
    (let* brep := cls in
     call brep (set_occ_shape (Some shell)) ;;
     call brep sew ;;
     call brep fix_ ;;
     ret brep) h
    = (Return (length h), h ++ [mkBRep (Some s)]).
Proof.
  eexists. unfold bind, cls, ret.
  rewrite (call_on _ _ _ _ (lookup_new h __init__)). simpl.
  rewrite insert_new.
  rewrite (call_on _ _ _ _ (lookup_new h _)), sew_owned. simpl.
  rewrite insert_new.
  rewrite (call_on _ _ _ _ (lookup_new h _)), fix_owned. simpl.
  rewrite insert_new. reflexivity.
Qed.

(** C5: with a kernel whose primitives return, each of [from_polygons],
    [from_mesh], [from_box], [from_sphere], [from_cylinder] and
    [from_faces] returns a new BRep whose [occ_shape] is set to a kernel
    shape (it is not [None]); the objects that existed are untouched. *)
Theorem constructors_own_a_shape (h : heap) :
  (forall polygons, exists s,
      from_polygons polygons h = (Return (length h), h ++ [mkBRep (Some s)])) /\
  (forall mesh, exists s,
      from_mesh mesh h = (Return (length h), h ++ [mkBRep (Some s)])) /\
  (forall box, exists s,
      from_box box h = (Return (length h), h ++ [mkBRep (Some s)])) /\
  (forall sphere, exists s,
      from_sphere sphere h = (Return (length h), h ++ [mkBRep (Some s)])) /\
  (forall cylinder, exists s,
      from_cylinder cylinder h = (Return (length h), h ++ [mkBRep (Some s)])) /\
  (forall faces, exists s,
      from_faces faces h = (Return (length h), h ++ [mkBRep (Some s)])).
Proof.
  repeat split; intros x.
  - apply new_sewn_and_fixed.
  - apply new_sewn_and_fixed.
  - eexists. apply new_with_shape.
  - eexists. apply new_with_shape.
  - eexists. apply new_with_shape.
  - apply new_sewn_and_fixed.
Qed.

(** *** Boolean constructors *)

Lemma boolean_owned operator message (A B : ref) (h : heap) (a b : TopoDS_Shape) :
  h !! A = Some (mkBRep (Some a)) ->
  h !! B = Some (mkBRep (Some b)) ->
  boolean operator message A B h
  = if IsDone (operator a b)
    then (Return (length h), h ++ [mkBRep (Some (Shape (operator a b)))])
    else (Raise (Exception message), h).
Proof.
  intros HA HB. unfold boolean.
  unfold bind at 1. rewrite (call_occ_shape _ _ _ HA). simpl.
  unfold bind at 1. simpl.
  unfold bind at 1. rewrite (call_occ_shape _ _ _ HB). simpl.
  unfold bind at 1. simpl.
  destruct (IsDone (operator a b)); simpl; [| reflexivity].
  apply new_with_shape.
Qed.

Lemma lookup_below (h : heap) (r : ref) (o : BRep) : h !! r = Some o -> length h <> r.
Proof. intros E. apply lookup_lt_Some in E. lia. Qed.

(** C3, amended: for BReps [A] and [B] that own the shapes [a] and [b],
    whenever the kernel's operator on [a] and [b] reports that it is done,
    the boolean constructor (and the operator that calls it: [+] for the
    union, [-] for the difference, [&] for the intersection) returns a new
    BRep object, distinct from [A] and [B], whose shape is exactly the
    shape of that kernel operator (fuse, cut, common); [A], [B] and every
    other object are left as they were. *)
Theorem boolean_constructors_wrap_the_kernel_result
        (h : heap) (A B : ref) (a b : TopoDS_Shape) :
  h !! A = Some (mkBRep (Some a)) ->
  h !! B = Some (mkBRep (Some b)) ->
  (length h <> A /\ length h <> B) /\
  (IsDone (BRepAlgoAPI_Fuse a b) = true ->
     from_boolean_union A B h
     = (Return (length h), h ++ [mkBRep (Some (Shape (BRepAlgoAPI_Fuse a b)))]) /\
     __add__ A B h = from_boolean_union A B h) /\
  (IsDone (BRepAlgoAPI_Cut a b) = true ->
     from_boolean_difference A B h
     = (Return (length h), h ++ [mkBRep (Some (Shape (BRepAlgoAPI_Cut a b)))]) /\
     __sub__ A B h = from_boolean_difference A B h) /\
  (IsDone (BRepAlgoAPI_Common a b) = true ->
     from_boolean_intersection A B h
     = (Return (length h), h ++ [mkBRep (Some (Shape (BRepAlgoAPI_Common a b)))]) /\
     __and__ A B h = from_boolean_intersection A B h).
Proof.
  intros HA HB. split; [split; eauto using lookup_below |].
  unfold __add__, __sub__, __and__.
  unfold from_boolean_union, from_boolean_difference, from_boolean_intersection.
  rewrite !(boolean_owned _ _ _ _ _ _ _ HA HB).
  split; [| split]; intros Hdone; rewrite Hdone; split; reflexivity.
Qed.

(** C7: for BReps [A] and [B] that own the shapes [a] and [b], each
    boolean constructor raises exactly when the kernel's operator on [a]
    and [b] reports that it is not done; when it raises, the heap is the
    one it was called in: no BRep was created, and [A] and [B] are as they
    were. *)
Theorem boolean_constructors_raise_iff_not_done
        (h : heap) (A B : ref) (a b : TopoDS_Shape) :
  h !! A = Some (mkBRep (Some a)) ->
  h !! B = Some (mkBRep (Some b)) ->
  ((is_raise (fst (from_boolean_union A B h)) = true
    <-> IsDone (BRepAlgoAPI_Fuse a b) = false) /\
   (is_raise (fst (from_boolean_union A B h)) = true
    -> snd (from_boolean_union A B h) = h)) /\
  ((is_raise (fst (from_boolean_difference A B h)) = true
    <-> IsDone (BRepAlgoAPI_Cut a b) = false) /\
   (is_raise (fst (from_boolean_difference A B h)) = true
    -> snd (from_boolean_difference A B h) = h)) /\
  ((is_raise (fst (from_boolean_intersection A B h)) = true
    <-> IsDone (BRepAlgoAPI_Common a b) = false) /\
   (is_raise (fst (from_boolean_intersection A B h)) = true
    -> snd (from_boolean_intersection A B h) = h)).
Proof.
  intros HA HB.
  unfold from_boolean_union, from_boolean_difference, from_boolean_intersection.
  rewrite !(boolean_owned _ _ _ _ _ _ _ HA HB).
  repeat split;
    match goal with
    | |- context [IsDone ?op] => destruct (IsDone op); simpl; congruence
    end.
Qed.
End ConstructorFacts.

(** ** The B-spline surface wrapper *)

Section BsplineFacts.
Context `{Host} `{!GpKernel} `{!Kernel} `{!Wrappers}.
Import Bspline.

Lemma query_owned {A} (Query : Geom_BSplineSurface -> A) (s : Geom_BSplineSurface) :
  query Query (mkBSplineSurface (Some s)) = (Return (Query s), mkBSplineSurface (Some s)).
Proof. reflexivity. Qed.

(** C6: on a surface wrapper that owns the kernel surface [s], each read
    accessor returns the value of the kernel query of the same name on [s]
    (the poles converted to generic points, the domains as the two bounds
    of their direction) and the wrapper still owns [s] afterwards. *)
Theorem accessors_return_the_kernel_queries (s : Geom_BSplineSurface) :
  let self := mkBSplineSurface (Some s) in
  poles self = (Return (points2_from_array2 (Poles s)), self) /\
  u_knots self = (Return (UKnots s), self) /\
  v_knots self = (Return (VKnots s), self) /\
  u_mults self = (Return (UMultiplicities s), self) /\
  v_mults self = (Return (VMultiplicities s), self) /\
  u_degree self = (Return (UDegree s), self) /\
  v_degree self = (Return (VDegree s), self) /\
  u_domain self = (Return (fst (fst (fst (Bounds s))), snd (fst (fst (Bounds s)))), self) /\
  v_domain self = (Return (snd (fst (Bounds s)), snd (Bounds s)), self) /\
  is_u_periodic self = (Return (IsUPeriodic s), self) /\
  is_v_periodic self = (Return (IsVPeriodic s), self).
Proof.
  intros self. subst self. repeat split; try reflexivity.
  - unfold u_domain, bind. rewrite query_owned.
    destruct (Bounds s) as [[[umin umax] vmin] vmax]. reflexivity.
  - unfold v_domain, bind. rewrite query_owned.
    destruct (Bounds s) as [[[umin umax] vmin] vmax]. reflexivity.
Qed.

(** The indices of a [for index in range(n)] loop that reads [index + 1]. *)
Lemma range_succ (n : Z) :
  map (fun index => (index + 1)%Z) (range n) = map Z.of_nat (seq 1 (Z.to_nat n)).
Proof.
  unfold range. rewrite map_map, <- seq_shift, map_map.
  apply map_ext. intros k. lia.
Qed.

(** C8: on a surface wrapper that owns the kernel surface [s],
    [point_at(u, v)] returns the kernel's value of [s] at (u, v) as a
    generic point; [frame_at(u, v)] returns the frame made of the point and
    the two first derivatives that the kernel's [D1] gives at (u, v);
    [intersections(line)] returns the points number 1, 2, ..., NbPoints of
    the kernel's intersection of the line with [s], in that order, as
    generic points.  The wrapper still owns [s] after each call. *)
Theorem evaluation_delegates_to_the_kernel
        (s : Geom_BSplineSurface) (u v : float) (l : Line) :
  let self := mkBSplineSurface (Some s) in
  let intersection :=
    GeomAPI_IntCS_new (Geom_Line_new (Primitives.compas_line_to_occ_line l)) s in
  point_at u v self
  = (Return (Primitives.compas_point_from_occ_point (Value s u v)), self) /\
  frame_at u v self
  = (Return (Frame_new
               (Primitives.compas_point_from_occ_point (fst (fst (D1 s u v))))
               (Primitives.compas_vector_from_occ_vector (snd (fst (D1 s u v))))
               (Primitives.compas_vector_from_occ_vector (snd (D1 s u v)))), self) /\
  intersections l self
  = (Return (map (fun i => Primitives.compas_point_from_occ_point
                             (IntCS_Point intersection (Z.of_nat i)))
                 (seq 1 (Z.to_nat (NbPoints intersection)))), self).
Proof.
  intros self intersection. subst self. repeat split.
  - unfold frame_at, bind. rewrite query_owned.
    destruct (D1 s u v) as [[point uvec] vvec]. reflexivity.
  - unfold intersections, bind; simpl. fold intersection.
    rewrite (fold_left_append
               (fun index => Point_from_occ (IntCS_Point intersection (index + 1)%Z))).
    simpl. rewrite <- (map_map (fun index => (index + 1)%Z)
                               (fun i => Point_from_occ (IntCS_Point intersection i))).
    rewrite range_succ, map_map. reflexivity.
Qed.
End BsplineFacts.

(** ** The code run on the small kernel *)

(** C3, as stated, fails: [A] owns a solid and [E] an empty compound; the
    kernel's fuse of the two reports that it is not done, and
    [from_boolean_union] raises instead of returning a BRep.  No object is
    created. *)
Lemma union_with_an_empty_compound_raises :
  Toy.objects !! 0 = Some Toy.A /\
  Toy.objects !! 2 = Some Toy.E /\
  @Brep.from_boolean_union Toy.scalar Toy.kernel 0 2 Toy.objects
  = (Raise (Exception "Boolean union operation could not be completed."), Toy.objects).
Proof. repeat split. Qed.

(** The two solids [A] and [B]: the three constructors return the new
    object 3 with the faces of the union, the difference and the
    intersection. *)
Lemma boolean_constructors_on_two_solids :
  @Brep.from_boolean_union Toy.scalar Toy.kernel 0 1 Toy.objects
  = (Return 3,
     Toy.objects ++ [@Brep.mkBRep Toy.scalar Toy.kernel
                       (Some (Toy.Cells TopAbs_SOLID [1; 2; 3]%Z))]) /\
  @Brep.from_boolean_difference Toy.scalar Toy.kernel 0 1 Toy.objects
  = (Return 3,
     Toy.objects ++ [@Brep.mkBRep Toy.scalar Toy.kernel
                       (Some (Toy.Cells TopAbs_SOLID [1]%Z))]) /\
  @Brep.from_boolean_intersection Toy.scalar Toy.kernel 0 1 Toy.objects
  = (Return 3,
     Toy.objects ++ [@Brep.mkBRep Toy.scalar Toy.kernel
                       (Some (Toy.Cells TopAbs_SOLID [2]%Z))]).
Proof.
  destruct (@boolean_constructors_wrap_the_kernel_result
              Toy.scalar Toy.kernel Toy.objects 0 1
              (Toy.Cells TopAbs_SOLID [1; 2]%Z) (Toy.Cells TopAbs_SOLID [2; 3]%Z)
              eq_refl eq_refl) as (_ & U & D & I).
  destruct (U eq_refl) as [EU _].
  destruct (D eq_refl) as [ED _].
  destruct (I eq_refl) as [EI _].
  split; [exact EU | split; [exact ED | exact EI]].
Defined.

(** [A] and the empty compound [E]: each constructor raises, and the heap
    is the one before the call. *)
Lemma boolean_constructors_on_an_empty_compound :
  (is_raise (fst (@Brep.from_boolean_union Toy.scalar Toy.kernel 0 2 Toy.objects)) = true /\
   snd (@Brep.from_boolean_union Toy.scalar Toy.kernel 0 2 Toy.objects) = Toy.objects) /\
  (is_raise (fst (@Brep.from_boolean_difference Toy.scalar Toy.kernel 0 2 Toy.objects)) = true /\
   snd (@Brep.from_boolean_difference Toy.scalar Toy.kernel 0 2 Toy.objects) = Toy.objects) /\
  (is_raise (fst (@Brep.from_boolean_intersection Toy.scalar Toy.kernel 0 2 Toy.objects)) = true /\
   snd (@Brep.from_boolean_intersection Toy.scalar Toy.kernel 0 2 Toy.objects) = Toy.objects).
Proof.
  destruct (@boolean_constructors_raise_iff_not_done
              Toy.scalar Toy.kernel Toy.objects 0 2
              (Toy.Cells TopAbs_SOLID [1; 2]%Z) (Toy.Cells TopAbs_COMPOUND [])
              eq_refl eq_refl) as ((U & KU) & (D & KD) & (I & KI)).
  split; [| split]; split.
  - apply U. reflexivity.
  - apply KU, U. reflexivity.
  - apply D. reflexivity.
  - apply KD, D. reflexivity.
  - apply I. reflexivity.
  - apply KI, I. reflexivity.
Defined.

(** A shell of the faces 5 and 200: face 200 has an inner loop, and the
    dictionary holds its first loop only, with no hole. *)
Example data_of_a_face_with_a_hole :
  @Brep.data Toy.scalar Toy.kernel Toy.wrappers
    (@Brep.mkBRep Toy.scalar Toy.kernel (Some (Toy.Cells TopAbs_SHELL [5; 200]%Z)))
  = (Return
       (VDict [("faces",
                VList [VDict [("boundary", VList [VLeaf [5%Z]]);
                              ("surface", VLeaf [5%Z]);
                              ("holes", VList [])];
                       VDict [("boundary", VList [VLeaf [200%Z]]);
                              ("surface", VLeaf [200%Z]);
                              ("holes", VList [])]])]),
     @Brep.mkBRep Toy.scalar Toy.kernel (Some (Toy.Cells TopAbs_SHELL [5; 200]%Z))).
Proof. reflexivity. Qed.

(** A shell whose second face has no loop: [face.loops[0]] raises. *)
Example data_of_a_face_without_loop :
  fst (@Brep.data Toy.scalar Toy.kernel Toy.wrappers
         (@Brep.mkBRep Toy.scalar Toy.kernel (Some (Toy.Cells TopAbs_SHELL [5; -1]%Z))))
  = Raise IndexError.
Proof. reflexivity. Qed.

(** A BRep fresh from [__init__] owns no shape: the traversal hands [None]
    to the explorer. *)
Example faces_of_a_new_object :
  @Brep.faces Toy.scalar Toy.kernel (@Brep.__init__ Toy.scalar Toy.kernel)
  = (Raise TypeError, @Brep.__init__ Toy.scalar Toy.kernel).
Proof. reflexivity. Qed.

(** Two triangles and a quad: the new BRep is sewn to a shell and fixed. *)
Example from_polygons_of_three :
  let p := @mkPoint Toy.scalar (Toy.q 0) (Toy.q 0) (Toy.q 0) in
  @Brep.from_polygons Toy.scalar Toy.kernel Toy.wrappers
    [[p; p; p]; [p; p; p; p]; [p; p; p]] []
  = (Return 0,
     [@Brep.mkBRep Toy.scalar Toy.kernel (Some (Toy.Cells TopAbs_SHELL [3; 4; 3]%Z))]).
Proof. reflexivity. Qed.

(** One face is not sewn; a solid is not fixed. *)
Example sew_of_one_face :
  @Brep.sew Toy.scalar Toy.kernel
    (@Brep.mkBRep Toy.scalar Toy.kernel (Some (Toy.Cells TopAbs_FACE [9]%Z)))
  = (Return tt, @Brep.mkBRep Toy.scalar Toy.kernel (Some (Toy.Cells TopAbs_FACE [9]%Z))).
Proof. reflexivity. Qed.

Example sew_of_two_faces :
  @Brep.sew Toy.scalar Toy.kernel
    (@Brep.mkBRep Toy.scalar Toy.kernel (Some (Toy.Cells TopAbs_COMPOUND [9; 8]%Z)))
  = (Return tt, @Brep.mkBRep Toy.scalar Toy.kernel (Some (Toy.Cells TopAbs_SHELL [9; 8]%Z))).
Proof. reflexivity. Qed.

Example fix_of_a_solid :
  @Brep.fix_ Toy.scalar Toy.kernel Toy.A = (Return tt, Toy.A).
Proof. reflexivity. Qed.

Example fix_of_a_shell :
  @Brep.fix_ Toy.scalar Toy.kernel
    (@Brep.mkBRep Toy.scalar Toy.kernel (Some (Toy.Cells TopAbs_SHELL [9; 8]%Z)))
  = (Return tt, @Brep.mkBRep Toy.scalar Toy.kernel (Some (Toy.Cells TopAbs_SHELL [8; 9]%Z))).
Proof. reflexivity. Qed.

(** * Further properties of the code *)

(** ** conversions/primitives.py *)

Section MorePrimitivesFacts.
Context `{Host} `{!GpKernel}.

(** X1: a point converted to the kernel's point and back is the point it
    was, and so is a kernel point converted to a generic point and back;
    the same holds of vectors and the kernel's vectors. *)
Theorem point_and_vector_round_trips
        (p : Point) (v : Vector) (P : gp_Pnt) (V : gp_Vec) :
  Primitives.compas_point_from_occ_point (Primitives.compas_point_to_occ_point p) = p /\
  Primitives.compas_point_to_occ_point (Primitives.compas_point_from_occ_point P) = P /\
  Primitives.compas_vector_from_occ_vector (Primitives.compas_vector_to_occ_vector v) = v /\
  Primitives.compas_vector_to_occ_vector (Primitives.compas_vector_from_occ_vector V) = V.
Proof. destruct p, v, P, V. repeat split. Qed.
End MorePrimitivesFacts.

(** ** brep/brep.py *)

Section MoreBrepFacts.
Context `{Host} `{!GpKernel} `{!Kernel} `{!Wrappers}.
Context `{!Atoms} `{!MoreKernel} `{!MoreHost} `{!MoreWrappers}.
Import Brep BrepMore.

Lemma fold_left_map {A B C} (f : C -> B -> C) (g : A -> B) (l : list A) (c : C) :
  fold_left f (map g l) c = fold_left (fun c a => f c (g a)) l c.
Proof. revert c; induction l; intros c; simpl; auto. Qed.

(** X3: a BRep made from a mesh is the BRep made from the polygons of the
    mesh: [from_mesh(mesh)] is [from_polygons] of the coordinates of the
    faces of the mesh, in the order of [mesh.faces()]. *)
Theorem from_mesh_is_from_polygons (mesh : Mesh) (h : heap) :
  from_mesh mesh h
  = from_polygons (map (Mesh_face_coordinates mesh) (Mesh_faces mesh)) h.
Proof. unfold from_mesh, from_polygons. now rewrite fold_left_map. Qed.

Lemma traverse_unowned {W} (wrap : TopoDS_Shape -> W) (kind : TopAbs_ShapeEnum) :
  traverse wrap kind (mkBRep None) = (Raise TypeError, mkBRep None).
Proof. reflexivity. Qed.

Lemma traverse_keeps {W} (wrap : TopoDS_Shape -> W) (kind : TopAbs_ShapeEnum) (self : BRep) :
  snd (traverse wrap kind self) = self.
Proof.
  destruct self as [[s|]]; [now rewrite traverse_owned | reflexivity].
Qed.

Lemma after_traverse {W A} (wrap : TopoDS_Shape -> W) (kind : TopAbs_ShapeEnum)
      (k : list W -> A) (self : BRep) :
  (let* ws := traverse wrap kind in ret (k ws)) self
  = (match fst (traverse wrap kind self) with
     | Return ws => Return (k ws)
     | Raise e => Raise e
     end, self).
Proof.
  destruct self as [[s|]]; unfold bind.
  - now rewrite traverse_owned.
  - reflexivity.
Qed.

(** X5: [points], [curves] and [surfaces] are the traversals [vertices],
    [edges] and [faces] followed by the reading of each wrapper: they
    return the point of each vertex, the curve of each edge and the surface
    of each face, in the order of the traversal, raise what the traversal
    raises, and leave the BRep as it is. *)
Theorem points_curves_surfaces_follow_the_traversals (self : BRep) :
  points self
  = (match fst (vertices self) with
     | Return vs => Return (map BRepVertex_point vs)
     | Raise e => Raise e
     end, self) /\
  curves self
  = (match fst (edges self) with
     | Return es => Return (map BRepEdge_nurbscurve es)
     | Raise e => Raise e
     end, self) /\
  surfaces self
  = (match fst (faces self) with
     | Return fs => Return (map BRepFace_nurbssurface fs)
     | Raise e => Raise e
     end, self).
Proof.
  unfold points, curves, surfaces, vertices, edges, faces.
  repeat split; rewrite after_traverse;
    destruct (fst (traverse _ _ self)); try reflexivity;
    now rewrite fold_left_append.
Qed.

Lemma data_keeps (self : BRep) : snd (data self) = self.
Proof.
  destruct self as [[s|]]; [| reflexivity].
  unfold data, bind, faces. rewrite traverse_owned.
  now destruct (data_loop _ _).
Qed.

(** X4: reading a BRep never changes it: after [occ_shape], [type],
    [vertices], [edges], [loops], [faces], [points], [curves], [surfaces]
    and [data] the BRep is the one before the call, whether the call
    returned or raised and whether or not the BRep owns a shape. *)
Theorem reading_never_changes_a_brep (self : BRep) :
  snd (occ_shape self) = self /\
  snd (type self) = self /\
  snd (vertices self) = self /\
  snd (edges self) = self /\
  snd (loops self) = self /\
  snd (faces self) = self /\
  snd (points self) = self /\
  snd (curves self) = self /\
  snd (surfaces self) = self /\
  snd (data self) = self.
Proof.
  repeat split; try apply traverse_keeps; try apply data_keeps.
  - now destruct self as [[s|]].
  - unfold points, vertices. now rewrite after_traverse.
  - unfold curves, edges. now rewrite after_traverse.
  - unfold surfaces, faces. now rewrite after_traverse.
Qed.

(** X6: [sew] and [fix] keep a BRep that owns a shape a BRep that owns a
    shape: on such a BRep both return.  On a BRep without a shape both
    raise and leave it without one. *)
Theorem sew_and_fix_keep_a_shape (self : BRep) :
  match _occ_shape self with
  | Some s =>
      (exists s', sew self = (Return tt, mkBRep (Some s'))) /\
      (exists s', fix_ self = (Return tt, mkBRep (Some s')))
  | None =>
      is_raise (fst (sew self)) = true /\ snd (sew self) = self /\
      is_raise (fst (fix_ self)) = true /\ snd (fix_ self) = self
  end.
Proof.
  destruct self as [[s|]]; simpl.
  - split; eexists; [apply sew_owned | apply fix_owned].
  - repeat split.
Qed.
End MoreBrepFacts.

(** ** The [data] setter of a BRep *)

Section SetDataFacts.
Context `{Host} `{!GpKernel} `{!Kernel} `{!Wrappers}.
Context `{!Atoms} `{!MoreKernel} `{!MoreWrappers}.
Import Brep BrepMore.

(** What the setter does with the dictionary before it touches an object. *)
Definition parse (data : object) : result (list BRepFace) :=
  let? fs := getitem data "faces" in
  let? fs := iterate fs in
  faces_loop fs [].

Lemma set_data_parse (self : ref) (data : object) (h : heap) :
  set_data self data h
  = match parse data with
    | Return faces =>
        (let* rebuilt := from_faces faces in
         let* shape := call rebuilt occ_shape in
         call self (set_occ_shape shape)) h
    | Raise e => (Raise e, h)
    end.
Proof.
  unfold set_data, parse, bind, lift, rbind.
  destruct (getitem data "faces") as [fs | e]; [| reflexivity]. simpl.
  destruct (iterate fs) as [items | e]; [| reflexivity]. simpl.
  destruct (faces_loop items []) as [faces | e]; reflexivity.
Qed.

Lemma set_data_rebuild (self : ref) (faces : list BRepFace) (h : heap) (o : BRep) :
  h !! self = Some o ->
  exists s,
    from_faces faces h = (Return (length h), h ++ [mkBRep (Some s)]) /\
    (let* rebuilt := from_faces faces in
     let* shape := call rebuilt occ_shape in
     call self (set_occ_shape shape)) h
    = (Return tt, <[self := mkBRep (Some s)]> (h ++ [mkBRep (Some s)])).
Proof.
  intros Hself.
  destruct (new_sewn_and_fixed (fold_left add_face faces (MakeShell TopoDS_Shell)) h)
    as [s E].
  change (from_faces faces h = (Return (length h), h ++ [mkBRep (Some s)])) in E.
  exists s. split; [exact E |].
  unfold bind at 1. rewrite E.
  unfold bind at 1. rewrite (call_occ_shape _ _ _ (lookup_new h _)).
  simpl.
  assert ((h ++ [mkBRep (Some s)]) !! self = Some o) as Hself'
      by (now apply lookup_app_l_Some).
  now rewrite (call_on _ _ _ _ Hself').
Qed.

(** X7: the [data] setter is all or nothing.  On an existing BRep it
    either raises, and then no object was created and none was changed, or
    it returns, and then exactly one BRep was created (the one that
    [from_faces] made) and [self] owns the very shape of that BRep. *)
Theorem set_data_is_all_or_nothing (self : ref) (data : object) (h : heap) (o : BRep) :
  h !! self = Some o ->
  match set_data self data h with
  | (Raise e, h') => h' = h
  | (Return _, h') =>
      exists s, h' = <[self := mkBRep (Some s)]> (h ++ [mkBRep (Some s)])
  end.
Proof.
  intros Hself. rewrite set_data_parse.
  destruct (parse data) as [faces | e]; [| reflexivity].
  destruct (set_data_rebuild self faces h o Hself) as (s & _ & ->).
  now exists s.
Qed.

Lemma edges_of_map (boundary : list object) :
  edges_of boundary
  = map (fun curvedata => BRepEdge_from_curve (OCCNurbsCurve_from_data curvedata)) boundary.
Proof.
  unfold edges_of.
  now rewrite (fold_left_append
                 (fun curvedata => BRepEdge_from_curve (OCCNurbsCurve_from_data curvedata))).
Qed.

(** A face as the setter rebuilds it from what the getter wrote for it. *)
Let rebuilt_from (face face' : BRepFace) : Prop :=
  exists first inner,
    BRepFace_loops face = first :: inner /\
    face' = BRepFace_from_surface
              (OCCNurbsSurface_from_data (ODict (data_items (BRepFace_nurbssurface_data face))))
              (BRepLoop_from_edges
                 (map (fun edge =>
                         BRepEdge_from_curve
                           (OCCNurbsCurve_from_data
                              (ODict (data_items (BRepEdge_nurbscurve_data edge)))))
                      (BRepLoop_edges first))).

Lemma faces_loop_of_dump (fs : list BRepFace) (entries : list (value geometry_data))
      (acc : list BRepFace) :
  Forall2
    (fun face entry =>
       exists first inner,
         BRepFace_loops face = first :: inner /\
         entry = VDict [("boundary",
                         VList (map (fun edge => VLeaf (BRepEdge_nurbscurve_data edge))
                                    (BRepLoop_edges first)));
                        ("surface", VLeaf (BRepFace_nurbssurface_data face));
                        ("holes", VList [])])
    fs entries ->
  exists faces',
    faces_loop (map dump entries) acc = Return (acc ++ faces') /\
    Forall2 rebuilt_from fs faces'.
Proof.
  intros Hall. revert acc.
  induction Hall as [| face entry fs entries (first & inner & Hloops & ->) _ IH];
    intros acc; simpl.
  - exists []. split; [now rewrite app_nil_r | constructor].
  - rewrite edges_of_map, !map_map. simpl.
    destruct (IH (acc ++ [BRepFace_from_surface
                            (OCCNurbsSurface_from_data
                               (ODict (data_items (BRepFace_nurbssurface_data face))))
                            (BRepLoop_from_edges
                               (map (fun edge =>
                                       BRepEdge_from_curve
                                         (OCCNurbsCurve_from_data
                                            (ODict (data_items
                                                      (BRepEdge_nurbscurve_data edge)))))
                                    (BRepLoop_edges first)))]))
      as (faces' & E & Hall').
    eexists (_ :: faces'). split.
    + rewrite E, <- app_assoc. reflexivity.
    + constructor; [| exact Hall'].
      exists first, inner. split; [exact Hloops | reflexivity].
Qed.

(** X8: the setter accepts every dictionary that the getter returns.  If
    [data] returns [d] on a BRep that owns the shape [s], then setting [d]
    on an existing BRep returns: each face of [s] is rebuilt from its
    surface data and from the curve data of the edges of its first loop,
    in order, and of nothing else; the rebuilt faces go through
    [from_faces], and [self] ends with the shape of that new BRep. *)
Theorem set_data_accepts_the_data_of_a_brep
        (s : TopoDS_Shape) (d : value geometry_data)
        (self : ref) (h : heap) (o : BRep) :
  data (mkBRep (Some s)) = (Return d, mkBRep (Some s)) ->
  h !! self = Some o ->
  exists faces' s',
    Forall2
      (fun face face' =>
         exists first inner,
           BRepFace_loops face = first :: inner /\
           face' = BRepFace_from_surface
                     (OCCNurbsSurface_from_data
                        (ODict (data_items (BRepFace_nurbssurface_data face))))
                     (BRepLoop_from_edges
                        (map (fun edge =>
                                BRepEdge_from_curve
                                  (OCCNurbsCurve_from_data
                                     (ODict (data_items (BRepEdge_nurbscurve_data edge)))))
                             (BRepLoop_edges first))))
      (map mkBRepFace (TopExp_Explorer s TopAbs_FACE)) faces' /\
    from_faces faces' h = (Return (length h), h ++ [mkBRep (Some s')]) /\
    set_data self (dump d) h
    = (Return tt, <[self := mkBRep (Some s')]> (h ++ [mkBRep (Some s')])).
Proof.
  intros Hdata Hself.
  unfold data, bind, faces in Hdata. rewrite traverse_owned in Hdata.
  pose proof (data_loop_first_loop_only
                (map mkBRepFace (TopExp_Explorer s TopAbs_FACE)) []) as Hloop.
  cbv zeta in Hloop.
  destruct (data_loop (map mkBRepFace (TopExp_Explorer s TopAbs_FACE)) [])
    as [out | e]; [| discriminate Hdata].
  destruct Hloop as (entries & -> & Hall). simpl in Hdata.
  injection Hdata as <-.
  destruct (faces_loop_of_dump _ _ [] Hall) as (faces' & Hparse & Hrebuilt).
  destruct (set_data_rebuild self faces' h o Hself) as (s' & Hfrom & Hset).
  exists faces', s'. split; [exact Hrebuilt | split; [exact Hfrom |]].
  rewrite set_data_parse. unfold parse. simpl.
  rewrite Hparse. exact Hset.
Qed.

Lemma faces_loop_app (before rest : list object) (acc : list BRepFace) :
  Forall (fun facedata => is_raise (face_of_data facedata) = false) before ->
  exists faces, faces_loop (before ++ rest) acc = faces_loop rest (acc ++ faces).
Proof.
  intros Hall. revert acc.
  induction Hall as [| facedata before Hok _ IH]; intros acc; simpl.
  - exists []. now rewrite app_nil_r.
  - destruct (face_of_data facedata) as [face | e]; [| discriminate Hok].
    destruct (IH (acc ++ [face])) as [faces E].
    exists (face :: faces). now rewrite E, <- app_assoc.
Qed.

(** A face dictionary as the getter writes it: the data of the curves of a
    boundary, the data of a surface, and no hole. *)
Definition written_face (curves : list geometry_data) (surface : geometry_data) : object :=
  dump (VDict [("boundary", VList (map VLeaf curves));
               ("surface", VLeaf surface);
               ("holes", VList [])]).

Lemma face_of_data_written (curves : list geometry_data) (surface : geometry_data) :
  is_raise (face_of_data (written_face curves surface)) = false.
Proof. reflexivity. Qed.

(** X9: a face dictionary must have the key "holes" although nothing is
    made of the holes.  Take face dictionaries as the getter writes them,
    and after them a face dictionary that holds the data of a surface under
    "surface" and the list of the data of its curves under "boundary", as
    the getter writes them, but has no key "holes": the setter raises
    KeyError for "holes", whatever follows that face, and no object is
    created or changed. *)
Theorem set_data_requires_the_holes_key
        (self : ref) (h : heap)
        (before : list (list geometry_data * geometry_data)) (rest : list object)
        (items : list (string * object))
        (curves : list geometry_data) (surface : geometry_data) :
  lookup_key "surface" items = Some (dump (VLeaf surface)) ->
  lookup_key "boundary" items = Some (dump (VList (map VLeaf curves))) ->
  lookup_key "holes" items = None ->
  set_data self
    (ODict [("faces",
             OList (map (fun face => written_face (fst face) (snd face)) before
                    ++ ODict items :: rest))])
    h
  = (Raise (KeyError "holes"), h).
Proof.
  intros Hs Hb Hholes.
  rewrite set_data_parse. unfold parse. simpl.
  assert (Forall (fun facedata => is_raise (face_of_data facedata) = false)
                 (map (fun face => written_face (fst face) (snd face)) before)) as Hbefore.
  { apply Forall_forall. intros fd Hin.
    apply list_elem_of_In, in_map_iff in Hin. destruct Hin as (face & <- & _).
    apply face_of_data_written. }
  destruct (faces_loop_app _ (ODict items :: rest) [] Hbefore) as [faces ->].
  simpl. unfold face_of_data at 1. simpl. rewrite Hs, Hb. simpl.
  rewrite Hholes. reflexivity.
Qed.

(** Two face dictionaries with the same surface and the same boundary,
    each with holes that can be iterated. *)
Definition same_but_holes (d1 d2 : object) : Prop :=
  getitem d1 "surface" = getitem d2 "surface" /\
  getitem d1 "boundary" = getitem d2 "boundary" /\
  (exists hs, getitem d1 "holes" = Return hs /\ is_raise (iterate hs) = false) /\
  (exists hs, getitem d2 "holes" = Return hs /\ is_raise (iterate hs) = false).

Lemma face_of_data_ignores_the_holes (d1 d2 : object) :
  same_but_holes d1 d2 -> face_of_data d1 = face_of_data d2.
Proof.
  intros (Hs & Hb & (hs1 & Hh1 & I1) & (hs2 & Hh2 & I2)).
  unfold face_of_data. rewrite Hs, Hb, Hh1, Hh2.
  destruct (getitem d2 "surface") as [s | e]; [| reflexivity]. simpl.
  destruct (getitem d2 "boundary") as [b | e]; [| reflexivity]. simpl.
  destruct (iterate b) as [l | e]; [| reflexivity]. simpl.
  destruct (iterate hs1); [| discriminate I1].
  destruct (iterate hs2); [| discriminate I2].
  reflexivity.
Qed.

(** X10: what stands under "holes" is never used.  Two lists of face
    dictionaries that agree, face by face, on the surface and the boundary,
    and whose holes can be iterated, are set to the same result: the holes
    of a face cannot be given to a BRep through its data. *)
Theorem set_data_ignores_the_holes
        (self : ref) (h : heap) (faces1 faces2 : list object) :
  Forall2 same_but_holes faces1 faces2 ->
  set_data self (ODict [("faces", OList faces1)]) h
  = set_data self (ODict [("faces", OList faces2)]) h.
Proof.
  intros Hall. rewrite !set_data_parse. unfold parse. simpl.
  assert (forall acc, faces_loop faces1 acc = faces_loop faces2 acc) as ->; [| reflexivity].
  induction Hall as [| d1 d2 l1 l2 Hd _ IH]; intros acc; simpl; [reflexivity |].
  rewrite (face_of_data_ignores_the_holes d1 d2 Hd).
  destruct (face_of_data d2); [apply IH | reflexivity].
Qed.
End SetDataFacts.

(** ** The tesselation of a BRep *)

Section TesselationFacts.
Context `{Host} `{!GpKernel} `{!Kernel} `{!Wrappers}.
Context `{!Atoms} `{!MoreKernel} `{!MoreHost} `{!MoreWrappers}.
Import Brep BrepMore.

(** The triangle that the loop appends for the kernel's triangle number [i]. *)
Definition zero_based (triangulation : Poly_Triangulation) (i : Z) : list Z :=
  let '(u, v, w) := Triangle triangulation i in [u - 1; v - 1; w - 1]%Z.

Lemma fold_left_pointwise {A B} (f g : A -> B -> A) (l : list B) (a : A) :
  (forall a b, f a b = g a b) -> fold_left f l a = fold_left g l a.
Proof.
  intros E. revert a. induction l as [| b l IH]; intros a; simpl; [reflexivity |].
  now rewrite E, IH.
Qed.

Lemma triangles_of_map (triangulation : Poly_Triangulation) :
  triangles_of triangulation
  = map (fun i => zero_based triangulation (Z.of_nat i))
        (seq 1 (Z.to_nat (NbTriangles triangulation))).
Proof.
  unfold triangles_of, range_from_1.
  rewrite (fold_left_pointwise _ (fun faces i => faces ++ [zero_based triangulation i])).
  - rewrite (fold_left_append (zero_based triangulation)), map_map.
    now rewrite Z.add_simpl_r.
  - intros faces i. unfold zero_based.
    now destruct (Triangle triangulation i) as [[u v] w].
Qed.

(** X11: the tesselation of a BRep that owns the shape [s] is the join,
    in the explorer's order, of one mesh per face of [s]; the mesh of a
    face has the converted nodes of the triangulation of that face as its
    vertices and, for the kernel's triangles number 1, 2, ..., NbTriangles
    in that order, the three node numbers of the triangle each lowered by
    one as its faces. *)
Theorem to_tesselation_joins_a_mesh_per_face (s : TopoDS_Shape) (linear_deflection : float) :
  to_tesselation linear_deflection (mkBRep (Some s))
  = (Return
       (fold_left Mesh_join
          (map (fun face =>
                  Mesh_from_vertices_and_faces
                    (points1_from_array1 (Nodes (Triangulation s linear_deflection face)))
                    (map (fun i => zero_based (Triangulation s linear_deflection face)
                                              (Z.of_nat i))
                         (seq 1 (Z.to_nat (NbTriangles
                                             (Triangulation s linear_deflection face))))))
               (TopExp_Explorer s TopAbs_FACE))
          Mesh_new),
     mkBRep (Some s)).
Proof.
  unfold to_tesselation, bind, faces. cbn -[traverse]. rewrite traverse_owned.
  cbn -[triangles_of]. unfold ret. rewrite !fold_left_map. do 2 f_equal.
  apply fold_left_pointwise. intros mesh face. simpl.
  now rewrite triangles_of_map.
Qed.

(** X12: the faces of a face's mesh are as many as the kernel's triangles,
    each of three vertex numbers; and if the kernel numbers the nodes of
    every triangle from 1 to [n], the vertex numbers handed to the mesh run
    from 0 to [n - 1]: they index the [n] vertices from zero. *)
Theorem tesselation_indices_are_zero_based (triangulation : Poly_Triangulation) (n : Z) :
  (forall i, (1 <= i <= NbTriangles triangulation)%Z ->
             Forall (fun k => (1 <= k <= n)%Z)
                    (let '(u, v, w) := Triangle triangulation i in [u; v; w])) ->
  length (triangles_of triangulation) = Z.to_nat (NbTriangles triangulation) /\
  Forall (fun face => length face = 3 /\ Forall (fun k => (0 <= k < n)%Z) face)
         (triangles_of triangulation).
Proof.
  intros Hkernel. rewrite triangles_of_map. split.
  - now rewrite length_map, length_seq.
  - apply Forall_forall. intros face Hin.
    apply list_elem_of_In, in_map_iff in Hin. destruct Hin as (i & <- & Hi).
    apply in_seq in Hi.
    specialize (Hkernel (Z.of_nat i)).
    unfold zero_based.
    destruct (Triangle triangulation (Z.of_nat i)) as [[u v] w].
    assert (1 <= Z.of_nat i <= NbTriangles triangulation)%Z as Hrange by lia.
    specialize (Hkernel Hrange).
    split; [reflexivity |].
    repeat match goal with
           | Hk : Forall _ (_ :: _) |- _ => apply Forall_cons in Hk; destruct Hk
           end.
    repeat (apply Forall_cons; split; [lia |]). constructor.
Qed.
End TesselationFacts.

(** ** The data of a B-spline surface *)

Section SurfaceDataFacts.
Context `{Host} `{!GpKernel} `{!Kernel} `{!Wrappers}.
Context `{!Atoms} `{!MoreKernel} `{!MoreHost} `{!MoreWrappers}.
Import Bspline BsplineMore.

(** X13: setting the data of a surface wrapper and [from_data] agree: the
    setter raises exactly when [from_data] raises, with the same exception
    and leaving the wrapper as it was; otherwise it leaves the wrapper
    equal to the one that [from_data] returns, whatever the wrapper held
    before. *)
Theorem surface_set_data_agrees_with_from_data (data : object) (self : BSplineSurface) :
  set_data data self
  = match from_data data with
    | Return surface => (Return tt, surface)
    | Raise e => (Raise e, self)
    end.
Proof.
  unfold set_data, from_data, from_parameters, bind, lift, rbind, put.
  destruct (poles_of data); [| reflexivity]. simpl.
  repeat match goal with
         | |- context [getitem data ?key] =>
             destruct (getitem data key); [| reflexivity]; simpl
         end.
  reflexivity.
Qed.

(** The keys that [from_data] reads after "points". *)
Definition parameter_keys : list string :=
  ["u_knots"; "v_knots"; "u_mults"; "v_mults"; "u_degree"; "v_degree";
   "is_u_periodic"; "is_v_periodic"].

(** X14: [from_data] returns a surface only if the dictionary has
    something iterable under "points" and has each of the eight keys
    "u_knots", "v_knots", "u_mults", "v_mults", "u_degree", "v_degree",
    "is_u_periodic" and "is_v_periodic": a dictionary that lacks one of the
    nine makes it raise.  (By X13 the same holds of the setter.) *)
Theorem surface_from_data_needs_its_nine_keys (data : object) :
  is_raise (from_data data) = false ->
  (exists points, getitem data "points" = Return points /\
                  is_raise (iterate points) = false) /\
  Forall (fun key => is_raise (getitem data key) = false) parameter_keys.
Proof.
  unfold from_data, poles_of, parameter_keys, rbind.
  intros Hret.
  destruct (getitem data "points") as [points | e]; [| discriminate Hret].
  simpl in Hret.
  destruct (iterate points) as [items | e] eqn:Eit; [| discriminate Hret].
  simpl in Hret.
  split; [exists points; split; [reflexivity | now rewrite Eit] |].
  repeat match type of Hret with
         | context [getitem data ?key] =>
             destruct (getitem data key) eqn:?; simpl in Hret; [| discriminate Hret]
         end.
  repeat (apply Forall_cons; split;
          [match goal with
           | E : getitem data ?key = Return _ |- is_raise (getitem data ?key) = false =>
               now rewrite E
           end |]).
  constructor.
Qed.
End SurfaceDataFacts.

(** ** The meshes of a BRep and of a surface *)

Section MeshFacts.
Context `{Host} `{!GpKernel} `{!Kernel} `{!Wrappers}.
Context `{!Atoms} `{!MoreKernel} `{!MoreHost} `{!MoreWrappers} `{!MeshWrappers}.
Import Brep BrepMore.

(** X15: [to_meshes(u, v)] makes nothing of [u] and [v].  On a BRep that
    owns the shape [s] it returns, whatever [u] and [v] are, one mesh per
    face of the shape that the kernel's NURBS conversion makes of [s], in
    the explorer's order, each the tesselation of the surface of that
    face; it creates one BRep, which owns the converted shape, and changes
    no object that existed. *)
Theorem to_meshes_ignores_u_and_v (u v : Z) (self : ref) (h : heap) (s : TopoDS_Shape) :
  h !! self = Some (mkBRep (Some s)) ->
  to_meshes u v self h
  = (Return
       (map (fun face => OCCNurbsSurface_to_tesselation (OCCNurbsSurface_from_face face))
            (TopExp_Explorer (BRepBuilderAPI_NurbsConvert s false) TopAbs_FACE)),
     h ++ [mkBRep (Some (BRepBuilderAPI_NurbsConvert s false))]).
Proof.
  intros Hself. unfold to_meshes.
  unfold bind at 1. rewrite (call_occ_shape _ _ _ Hself). simpl.
  unfold bind at 1. simpl.
  unfold bind at 1. unfold cls at 1.
  unfold bind at 1. rewrite (call_on _ _ _ _ (lookup_new h __init__)). simpl.
  unfold ref, heap. rewrite insert_new.
  unfold bind at 1. rewrite (call_on _ _ _ _ (lookup_new h _)).
  unfold faces. rewrite traverse_owned. simpl.
  unfold ref, heap. rewrite insert_new.
  unfold ret. do 2 f_equal.
  rewrite (fold_left_append
             (fun face => OCCNurbsSurface_to_tesselation
                            (OCCNurbsSurface_from_face (occ_face face)))).
  simpl. now rewrite map_map.
Qed.
End MeshFacts.

Section VizmeshFacts.
Context `{Host} `{!GpKernel} `{!Kernel} `{!Wrappers}.
Context `{!Atoms} `{!MoreKernel} `{!MoreHost} `{!MoreWrappers}.
Import Bspline BsplineMore.

Lemma query_keeps {A} (Query : Geom_BSplineSurface -> A) (self : BSplineSurface) :
  snd (query Query self) = self.
Proof. now destruct self as [[s|]]. Qed.

Lemma corner_keeps (U V : list (list float)) (i j : Z) (self : BSplineSurface) :
  snd (corner U V i j self) = self.
Proof.
  unfold corner, bind, lift.
  destruct (index2 U i j); [| reflexivity]. simpl.
  destruct (index2 V i j); [| reflexivity]. simpl.
  unfold point_at, bind.
  pose proof (query_keeps (fun surface => Value surface a a0) self) as Hq.
  destruct (query _ self) as [[p | e] self']; simpl in *; now subst.
Qed.

(** One step of a method that leaves the wrapper as it is. *)
Lemma bind_keeps {A B} (m : py BSplineSurface A) (k : A -> py BSplineSurface B)
      (self self' : BSplineSurface) (b : B) :
  snd (m self) = self ->
  bind m k self = (Return b, self') ->
  exists a, m self = (Return a, self) /\ k a self = (Return b, self').
Proof.
  unfold bind. intros Hkeep Hret.
  destruct (m self) as [[a | e] s1]; simpl in Hkeep; subst s1; [| discriminate Hret].
  now exists a.
Qed.

Lemma inner_loop_count (U V : list (list float)) (i : Z) (js : list Z)
      (acc quads : list (list Point)) (self self' : BSplineSurface) :
  inner_loop U V i js acc self = (Return quads, self') ->
  self' = self /\
  length quads = length acc + length js /\
  (Forall (fun quad => length quad = 4) acc -> Forall (fun quad => length quad = 4) quads).
Proof.
  revert acc. induction js as [| j rest IH]; intros acc Hret; simpl in Hret.
  - injection Hret as <- <-. simpl. repeat split; [lia | auto].
  - apply bind_keeps in Hret as (a & _ & Hret); [| apply corner_keeps].
    apply bind_keeps in Hret as (b & _ & Hret); [| apply corner_keeps].
    apply bind_keeps in Hret as (c & _ & Hret); [| apply corner_keeps].
    apply bind_keeps in Hret as (d & _ & Hret); [| apply corner_keeps].
    apply IH in Hret as (-> & Hlen & Hall).
    repeat split.
    + rewrite Hlen, length_app. simpl. lia.
    + intros Hacc. apply Hall, Forall_app. split; [exact Hacc |].
      now repeat constructor.
Qed.

Lemma outer_loop_count (U V : list (list float)) (is_ js : list Z)
      (acc quads : list (list Point)) (self self' : BSplineSurface) :
  outer_loop U V is_ js acc self = (Return quads, self') ->
  self' = self /\
  length quads = length acc + length is_ * length js /\
  (Forall (fun quad => length quad = 4) acc -> Forall (fun quad => length quad = 4) quads).
Proof.
  revert acc self. induction is_ as [| i rest IH]; intros acc self Hret; simpl in Hret.
  - injection Hret as <- <-. simpl. repeat split; [lia | auto].
  - unfold bind in Hret.
    destruct (inner_loop U V i js acc self) as [[row | e] s1] eqn:Einner;
      [| discriminate Hret].
    apply inner_loop_count in Einner as (-> & Hlen & Hall).
    apply IH in Hret as (-> & Hlen' & Hall').
    repeat split; [simpl; lia | auto].
Qed.

Lemma uspace_keeps (n : Z) (self : BSplineSurface) : snd (uspace n self) = self.
Proof.
  destruct self as [[s|]]; [| reflexivity].
  unfold uspace, u_domain, bind. rewrite !query_owned.
  now destruct (Bounds s) as [[[umin umax] vmin] vmax].
Qed.

Lemma vspace_keeps (n : Z) (self : BSplineSurface) : snd (vspace n self) = self.
Proof.
  destruct self as [[s|]]; [| reflexivity].
  unfold vspace, v_domain, bind. rewrite !query_owned.
  now destruct (Bounds s) as [[[umin umax] vmin] vmax].
Qed.

Lemma after_query_keeps {A B} (Query : Geom_BSplineSurface -> A) (k : A -> B)
      (self : BSplineSurface) :
  snd ((let* a := query Query in ret (k a)) self) = self.
Proof. now destruct self as [[s|]]. Qed.

(** X17: reading a surface wrapper never changes it: after each of the
    eleven accessors, [point_at], [frame_at], [intersections], [uspace] and
    [vspace] the wrapper is the one before the call, whether the call
    returned or raised and whether or not the wrapper owns a kernel
    surface. *)
Theorem reading_never_changes_a_surface
        (self : BSplineSurface) (u v : float) (l : Line) (n : Z) :
  snd (poles self) = self /\
  snd (u_knots self) = self /\
  snd (v_knots self) = self /\
  snd (u_mults self) = self /\
  snd (v_mults self) = self /\
  snd (u_degree self) = self /\
  snd (v_degree self) = self /\
  snd (u_domain self) = self /\
  snd (v_domain self) = self /\
  snd (is_u_periodic self) = self /\
  snd (is_v_periodic self) = self /\
  snd (point_at u v self) = self /\
  snd (frame_at u v self) = self /\
  snd (intersections l self) = self /\
  snd (uspace n self) = self /\
  snd (vspace n self) = self.
Proof.
  repeat split; try apply query_keeps; try apply uspace_keeps; try apply vspace_keeps;
    try apply after_query_keeps.
  - destruct self as [[s|]]; [| reflexivity].
    unfold u_domain, bind. rewrite query_owned.
    now destruct (Bounds s) as [[[umin umax] vmin] vmax].
  - destruct self as [[s|]]; [| reflexivity].
    unfold v_domain, bind. rewrite query_owned.
    now destruct (Bounds s) as [[[umin umax] vmin] vmax].
  - destruct self as [[s|]]; [| reflexivity].
    unfold frame_at, bind. rewrite query_owned.
    now destruct (D1 s u v) as [[point uvec] vvec].
  - now destruct self as [[s|]].
Qed.

Lemma length_range (n : Z) : length (range n) = Z.to_nat n.
Proof. unfold range. now rewrite length_map, length_seq. Qed.

(** X16: whenever [to_vizmesh(u, v)] gets its quads together, there are
    (u - 1) * (v - 1) of them, of four points each, where a [v] that is
    [None] or 0 counts as [u]; these quads are what the mesh is made from,
    and the wrapper is left as it was. *)
Theorem vizmesh_has_a_quad_per_cell
        (u : Z) (v : option Z) (self self' : BSplineSurface) (quads : list (list Point)) :
  vizmesh_quads u v self = (Return quads, self') ->
  self' = self /\
  length quads
  = Z.to_nat (u - 1)
    * Z.to_nat (match v with None => u | Some 0%Z => u | Some v' => v' end - 1) /\
  Forall (fun quad => length quad = 4) quads /\
  to_vizmesh u v self = (Return (Mesh_from_polygons quads), self).
Proof.
  intros Hret. assert (Hquads := Hret). unfold vizmesh_quads in Hret.
  apply bind_keeps in Hret as (us & _ & Hret); [| apply uspace_keeps].
  apply bind_keeps in Hret as (vs & _ & Hret); [| apply vspace_keeps].
  destruct (meshgrid us vs) as [U V].
  apply outer_loop_count in Hret as (-> & Hlen & Hall).
  rewrite !length_range in Hlen. simpl in Hlen.
  repeat split; [exact Hlen | apply Hall; constructor |].
  unfold to_vizmesh, bind. now rewrite Hquads.
Qed.
End VizmeshFacts.

(** ** The further code run on the small kernel *)

Section Runs.
#[local] Existing Instance Toy.scalar.
#[local] Existing Instance Toy.gp.
#[local] Existing Instance Toy.kernel.
#[local] Existing Instance Toy.wrappers.
#[local] Existing Instance ToyMore.atoms.
#[local] Existing Instance ToyMore.kernel.
#[local] Existing Instance ToyMore.wrappers.
Import Brep BrepMore.

(** Two well-formed faces set on the object 0 of the three objects. *)
Lemma set_data_of_two_faces :
  match set_data 0 (ODict [("faces", OList [ToyMore.face_dict 5 []; ToyMore.face_dict 7 []])])
                 Toy.objects with
  | (Raise e, h') => h' = Toy.objects
  | (Return _, h') =>
      exists s, h' = <[0 := mkBRep (Some s)]> (Toy.objects ++ [mkBRep (Some s)])
  end.
Proof. apply (@set_data_is_all_or_nothing Toy.scalar Toy.kernel Toy.wrappers ToyMore.atoms ToyMore.kernel ToyMore.wrappers
           0 _ Toy.objects Toy.A). reflexivity. Defined.

Example set_data_of_two_faces_result :
  set_data 0 (ODict [("faces", OList [ToyMore.face_dict 5 []; ToyMore.face_dict 7 []])])
           Toy.objects
  = (Return tt,
     [mkBRep (Some (Toy.Cells TopAbs_SHELL [7; 5]%Z)); Toy.B; Toy.E;
      mkBRep (Some (Toy.Cells TopAbs_SHELL [7; 5]%Z))]).
Proof. reflexivity. Qed.

Example set_data_without_faces :
  set_data 0 (ODict []) Toy.objects = (Raise (KeyError "faces"), Toy.objects).
Proof. reflexivity. Qed.

Example set_data_of_a_list :
  set_data 0 (OList []) Toy.objects = (Raise TypeError, Toy.objects).
Proof. reflexivity. Qed.

(** The data of a shell of the faces 5 and 200 (face 200 has an inner
    loop), set on the object 0. *)
Lemma set_data_of_the_data_of_a_shell :
  exists faces' s',
    Forall2
      (fun face face' =>
         exists first inner,
           BRepFace_loops face = first :: inner /\
           face' = BRepFace_from_surface
                     (OCCNurbsSurface_from_data
                        (ODict (data_items (BRepFace_nurbssurface_data face))))
                     (BRepLoop_from_edges
                        (map (fun edge =>
                                BRepEdge_from_curve
                                  (OCCNurbsCurve_from_data
                                     (ODict (data_items (BRepEdge_nurbscurve_data edge)))))
                             (BRepLoop_edges first))))
      (map mkBRepFace (TopExp_Explorer (Toy.Cells TopAbs_SHELL [5; 200]%Z) TopAbs_FACE))
      faces' /\
    from_faces faces' Toy.objects
    = (Return (length Toy.objects), Toy.objects ++ [mkBRep (Some s')]) /\
    set_data 0
      (dump (VDict [("faces",
                     VList [VDict [("boundary", VList [VLeaf [5%Z]]);
                                   ("surface", VLeaf [5%Z]);
                                   ("holes", VList [])];
                            VDict [("boundary", VList [VLeaf [200%Z]]);
                                   ("surface", VLeaf [200%Z]);
                                   ("holes", VList [])]])]))
      Toy.objects
    = (Return tt, <[0 := mkBRep (Some s')]> (Toy.objects ++ [mkBRep (Some s')])).
Proof.
  apply (@set_data_accepts_the_data_of_a_brep
           Toy.scalar Toy.kernel Toy.wrappers ToyMore.atoms ToyMore.kernel ToyMore.wrappers
           (Toy.Cells TopAbs_SHELL [5; 200]%Z) _ 0 Toy.objects Toy.A);
    reflexivity.
Defined.

(** A face without the key "holes" after a face as the getter writes it. *)
Lemma set_data_of_a_face_without_holes :
  set_data 0
    (ODict [("faces",
             OList (map (fun face => written_face (fst face) (snd face)) [([[5%Z]], [5%Z])]
                    ++ ODict (ToyMore.face_dict_without_holes 7) :: [ToyMore.face_dict 9 []]))])
    Toy.objects
  = (Raise (KeyError "holes"), Toy.objects).
Proof.
  apply (@set_data_requires_the_holes_key
           Toy.scalar Toy.kernel Toy.wrappers ToyMore.atoms ToyMore.kernel ToyMore.wrappers
           0 Toy.objects [([[5%Z]], [5%Z])] [ToyMore.face_dict 9 []]
           (ToyMore.face_dict_without_holes 7) [[7%Z]] [7%Z]).
  - reflexivity.
  - reflexivity.
  - reflexivity.
Defined.

(** The same face with no hole and with a hole written into its data. *)
Lemma set_data_with_and_without_a_hole :
  set_data 0 (ODict [("faces", OList [ToyMore.face_dict 5 []])]) Toy.objects
  = set_data 0 (ODict [("faces", OList [ToyMore.face_dict 5 [ToyMore.numbers 6]])])
             Toy.objects.
Proof.
  apply (@set_data_ignores_the_holes Toy.scalar Toy.kernel Toy.wrappers ToyMore.atoms ToyMore.kernel ToyMore.wrappers
           0 Toy.objects).
  constructor; [| constructor].
  repeat split; eexists; split; reflexivity.
Defined.

(** The two triangles of a quad, over its four nodes. *)
Lemma indices_of_a_quad :
  length (@triangles_of Toy.scalar Toy.kernel ToyMore.kernel [(1, 2, 3); (1, 3, 4)]%Z)
  = Z.to_nat (@NbTriangles Toy.scalar Toy.kernel ToyMore.kernel [(1, 2, 3); (1, 3, 4)]%Z) /\
  Forall (fun face => length face = 3 /\ Forall (fun k => (0 <= k < 4)%Z) face)
         (@triangles_of Toy.scalar Toy.kernel ToyMore.kernel [(1, 2, 3); (1, 3, 4)]%Z).
Proof.
  apply (@tesselation_indices_are_zero_based Toy.scalar Toy.kernel ToyMore.kernel).
  intros i Hi. simpl in Hi.
  assert (i = 1 \/ i = 2)%Z as [-> | ->] by lia;
    simpl; repeat constructor; lia.
Defined.

(** The meshes of the solid [B], asked with 16 by 16. *)
Lemma to_meshes_of_a_solid :
  @to_meshes Toy.scalar ToyMore.host Toy.kernel Toy.wrappers ToyMore.atoms ToyMore.kernel
             ToyMore.wrappers ToyMore.mesh_wrappers 16 16 1 Toy.objects
  = (Return
       (map (fun face =>
               @OCCNurbsSurface_to_tesselation
                 Toy.scalar Toy.kernel Toy.wrappers ToyMore.kernel ToyMore.atoms
                 ToyMore.wrappers ToyMore.host ToyMore.mesh_wrappers
                 (@OCCNurbsSurface_from_face
                    Toy.scalar Toy.kernel Toy.wrappers ToyMore.kernel ToyMore.atoms
                    ToyMore.wrappers ToyMore.host ToyMore.mesh_wrappers face))
            (@TopExp_Explorer Toy.scalar Toy.kernel
               (@BRepBuilderAPI_NurbsConvert Toy.scalar Toy.kernel ToyMore.kernel
                  (Toy.Cells TopAbs_SOLID [2; 3]%Z) false)
               TopAbs_FACE)),
     Toy.objects
     ++ [@mkBRep Toy.scalar Toy.kernel
           (Some (@BRepBuilderAPI_NurbsConvert Toy.scalar Toy.kernel ToyMore.kernel
                    (Toy.Cells TopAbs_SOLID [2; 3]%Z) false))]).
Proof.
  apply (@to_meshes_ignores_u_and_v
           Toy.scalar ToyMore.host Toy.kernel Toy.wrappers ToyMore.atoms ToyMore.kernel
           ToyMore.wrappers ToyMore.mesh_wrappers 16 16 1 Toy.objects
           (Toy.Cells TopAbs_SOLID [2; 3]%Z)).
  reflexivity.
Defined.

Example to_meshes_of_a_solid_result :
  @to_meshes Toy.scalar ToyMore.host Toy.kernel Toy.wrappers ToyMore.atoms ToyMore.kernel
             ToyMore.wrappers ToyMore.mesh_wrappers 16 16 1 Toy.objects
  = (Return [([], [[2%Z]]); ([], [[3%Z]])],
     Toy.objects ++ [@mkBRep Toy.scalar Toy.kernel (Some (Toy.Cells TopAbs_COMPOUND [2; 3]%Z))]).
Proof. reflexivity. Qed.

(** The 3 by 3 grid over the plane z = 7: four quads. *)
Lemma vizmesh_of_a_plane :
  ToyMore.plane = ToyMore.plane /\
  length ToyMore.plane_quads = Z.to_nat (3 - 1) * Z.to_nat (3 - 1) /\
  Forall (fun quad => length quad = 4) ToyMore.plane_quads /\
  @BsplineMore.to_vizmesh Toy.scalar ToyMore.host Toy.kernel ToyMore.atoms ToyMore.more_host
    3 None ToyMore.plane
  = (Return (@Mesh_from_polygons Toy.scalar ToyMore.host ToyMore.atoms ToyMore.more_host
               ToyMore.plane_quads), ToyMore.plane).
Proof.
  apply (@vizmesh_has_a_quad_per_cell
           Toy.scalar ToyMore.host Toy.kernel ToyMore.atoms ToyMore.more_host
           3 None ToyMore.plane ToyMore.plane ToyMore.plane_quads).
  reflexivity.
Defined.

Example triangles_of_a_quad :
  @triangles_of Toy.scalar Toy.kernel ToyMore.kernel [(1, 2, 3); (1, 3, 4)]%Z = [[0; 1; 2]; [0; 2; 3]]%Z.
Proof. reflexivity. Qed.

(** The data of a bilinear patch, with all its nine keys. *)
Lemma keys_of_a_patch :
  (exists points, getitem ToyMore.patch "points" = Return points /\
                  is_raise (iterate points) = false) /\
  Forall (fun key => is_raise (getitem ToyMore.patch key) = false) parameter_keys.
Proof.
  apply (@surface_from_data_needs_its_nine_keys
           Toy.scalar ToyMore.host Toy.kernel Toy.wrappers ToyMore.atoms ToyMore.kernel
           ToyMore.more_host ToyMore.wrappers ToyMore.patch).
  reflexivity.
Defined.

Example from_data_without_v_degree :
  @BsplineMore.from_data
    Toy.scalar ToyMore.host Toy.kernel Toy.wrappers ToyMore.atoms ToyMore.kernel
    ToyMore.more_host ToyMore.wrappers
    (ODict [("points", OList []); ("u_knots", OList []); ("v_knots", OList []);
            ("u_mults", OList []); ("v_mults", OList []); ("u_degree", OAtom 1%Z)])
  = Raise (KeyError "v_degree").
Proof. reflexivity. Qed.
End Runs.

(** ** Boolean constructors on a BRep without a shape *)

Section ShapelessFacts.
Context `{Kernel}.
Import Brep.

(** A BRep fresh from [__init__] hands [None] to the kernel operator: the
    constructor raises before an operator exists, over any kernel. *)
Lemma boolean_without_a_shape
      (operator : TopoDS_Shape -> TopoDS_Shape -> BooleanOperation TopoDS_Shape)
      (message : string) (A B : ref) (h : heap) :
  h !! A = Some (mkBRep None) ->
  boolean operator message A B h = (Raise TypeError, h).
Proof.
  intros HA. unfold boolean.
  unfold bind at 1. rewrite (call_occ_shape _ _ _ HA). reflexivity.
Qed.
End ShapelessFacts.

(** C7, as stated, fails: the object 0 is a BRep fresh from [__init__],
    which owns no shape, and the object 1 is the solid [B].  Each of the
    three constructors raises on this pair, with TypeError, although no
    kernel operator was made of the two, so none reported that it is not
    done.  The heap is left as it was. *)
Lemma boolean_constructors_on_a_shapeless_brep :
  [@Brep.__init__ Toy.scalar Toy.kernel; Toy.B] !! 0 = Some (Brep.mkBRep None) /\
  [@Brep.__init__ Toy.scalar Toy.kernel; Toy.B] !! 1 = Some Toy.B /\
  @Brep.from_boolean_union Toy.scalar Toy.kernel 0 1
    [@Brep.__init__ Toy.scalar Toy.kernel; Toy.B]
  = (Raise TypeError, [@Brep.__init__ Toy.scalar Toy.kernel; Toy.B]) /\
  @Brep.from_boolean_difference Toy.scalar Toy.kernel 0 1
    [@Brep.__init__ Toy.scalar Toy.kernel; Toy.B]
  = (Raise TypeError, [@Brep.__init__ Toy.scalar Toy.kernel; Toy.B]) /\
  @Brep.from_boolean_intersection Toy.scalar Toy.kernel 0 1
    [@Brep.__init__ Toy.scalar Toy.kernel; Toy.B]
  = (Raise TypeError, [@Brep.__init__ Toy.scalar Toy.kernel; Toy.B]).
Proof. repeat split. Qed.
